(** * PurePath: the streak and check-in operations of [utils/firebase]

    A shallow embedding of [register], [getUserProfile], [updateStreak]
    and [logRelapse] (the module the profile page imports as
    [utils/firebase]), together with the parts of the JavaScript [Date]
    object and of the Firestore client those functions rely on. *)

From Stdlib Require Import ZArith Lia Bool List.
From stdpp Require Import base option strings list gmap sorting.

Local Open Scope Z_scope.

(** ** The JavaScript [Date] calendar

    A [Date] is a time value: milliseconds since 1970-01-01T00:00:00Z.
    [getFullYear], [getMonth] and [getDate] read the proleptic Gregorian
    calendar date of the local time of that instant.  The conversion from a
    day number to a calendar date is the usual era-based one (an era is 400
    years, 146097 days, and starts on a 1st of March). *)

Module Calendar.

Definition msPerDay : Z := 86400000.

(** ECMAScript [Day(t)]: the day number of a time value. *)
Definition Day (t : Z) : Z := t / msPerDay.

(** A calendar date as the getters expose it: [month] is 0-based
    (0 = January), [date] is the day of the month, 1-based. *)
Record civil : Type := Civil { year : Z; month : Z; date : Z }.

Definition civil_eqb (a b : civil) : bool :=
  (year a =? year b) && (month a =? month b) && (date a =? date b).

(** Day of the March-based year on which the month with March-based
    index [mp] (0 = March, ..., 11 = February) starts. *)
Definition month_start (mp : Z) : Z := (153 * mp + 2) / 5.

(** Days of the era before the year-of-era [yoe] starts. *)
Definition year_start (yoe : Z) : Z := 365 * yoe + yoe / 4 - yoe / 100.

(** Day number (days since 1970-01-01) to calendar date. *)
Definition civil_from_days (z : Z) : civil :=
  let z := z + 719468 in
  let era := z / 146097 in
  let doe := z mod 146097 in
  let yoe := (doe - doe / 1460 + doe / 36524 - doe / 146096) / 365 in
  let doy := doe - year_start yoe in
  let mp := (5 * doy + 2) / 153 in
  let d := doy - month_start mp + 1 in
  let m := if mp <? 10 then mp + 3 else mp - 9 in
  let y := yoe + era * 400 in
  {| year := if m <=? 2 then y + 1 else y; month := m - 1; date := d |}.

(** Calendar date to day number. *)
Definition days_from_civil (c : civil) : Z :=
  let m := month c + 1 in
  let y := if m <=? 2 then year c - 1 else year c in
  let era := y / 400 in
  let yoe := y mod 400 in
  let mp := if 2 <? m then m - 3 else m + 9 in
  let doy := month_start mp + (date c - 1) in
  let doe := year_start yoe + doy in
  era * 146097 + doe - 719468.

(** The Gregorian calendar as the almanac has it: leap years, the length
    of each month, and the date that follows a date. *)
Definition is_leap (y : Z) : bool :=
  ((y mod 4 =? 0) && negb (y mod 100 =? 0)) || (y mod 400 =? 0).

Definition days_in_month (y m : Z) : Z :=
  if m =? 1 then (if is_leap y then 29 else 28)
  else if (m =? 3) || (m =? 5) || (m =? 8) || (m =? 10) then 30
  else 31.

Definition tomorrow (c : civil) : civil :=
  if date c <? days_in_month (year c) (month c)
  then Civil (year c) (month c) (date c + 1)
  else if month c <? 11 then Civil (year c) (month c + 1) 1
  else Civil (year c + 1) 0 1.

(** What is checked of each day number of one whole era: it is recovered
    from its calendar date, and the next day number has the next date. *)
Definition era_check_at (z : Z) : bool :=
  (days_from_civil (civil_from_days z) =? z) &&
  civil_eqb (civil_from_days (z + 1)) (tomorrow (civil_from_days z)).

Definition era_check_step (s : Z * bool) : Z * bool :=
  (fst s + 1, snd s && era_check_at (fst s)).

(** [era_check_upto n z]: the check holds at [z], ..., [z + n - 1]. *)
Definition era_check_upto (n : positive) (z : Z) : bool :=
  snd (Pos.iter era_check_step (z, true) n).

End Calendar.

(** ** JavaScript values and result objects

    The operations return object literals.  An object is kept as the list
    of its own properties; reading a property the object does not have
    yields [undefined]. *)

Inductive JsVal : Type :=
| VUndefined
| VBool (b : bool)
| VNum (n : Z)
| VStr (s : string).

Definition JsObject : Type := list (string * JsVal).

Fixpoint prop (o : JsObject) (key : string) : JsVal :=
  match o with
  | [] => VUndefined
  | (k, v) :: o' => if String.eqb k key then v else prop o' key
  end.

Definition has_prop (o : JsObject) (key : string) : bool :=
  existsb (fun kv => String.eqb (fst kv) key) o.

(** The integers on which JavaScript arithmetic is exact: for a number
    [n] with [isSafeInteger n], [n + 1] is the integer [n + 1]; from
    [2^53] on it is not. *)
Definition MAX_SAFE_INTEGER : Z := 2 ^ 53 - 1.

Definition isSafeInteger (n : Z) : bool :=
  (- MAX_SAFE_INTEGER <=? n) && (n <=? MAX_SAFE_INTEGER).

(** A numeric field that may be missing from a document. *)
Definition num_or_undefined (n : option Z) : JsVal :=
  match n with Some n => VNum n | None => VUndefined end.

(** ** Firestore documents

    [Timestamp.now()] is [Timestamp.fromMillis(Date.now())], so every
    timestamp this application writes is a whole number of milliseconds;
    a [Timestamp] is kept as that number and [toDate] is the time value of
    the resulting [Date].  [streakDays] is a day count, kept as an integer;
    the number the code holds is that integer, and the [+ 1] of the code is
    the [+ 1] of [Z], as long as it is a safe integer ([isSafeInteger]);
    statements about an incremented streak assume that. *)

Definition Timestamp : Type := Z.
Definition toDate (t : Timestamp) : Z := t.

Inductive Role : Type := admin | member.

Record GeoPoint (Coord : Type) : Type :=
  { latitude : Coord; longitude : Coord }.
Arguments latitude {Coord} _.
Arguments longitude {Coord} _.

(** The fields of a document of the [users] collection (the interface
    [UserProfile] without its [id]); every field is optional. *)
Record UserDoc (Coord : Type) : Type :=
  { username : option string;
    email : option string;
    location : option (GeoPoint Coord);
    role : option Role;
    joinedAt : option Timestamp;
    streakDays : option Z;
    lastCheckIn : option Timestamp }.
Arguments username {Coord} _.
Arguments email {Coord} _.
Arguments location {Coord} _.
Arguments role {Coord} _.
Arguments joinedAt {Coord} _.
Arguments streakDays {Coord} _.
Arguments lastCheckIn {Coord} _.

(** A document of the [relapses] collection. *)
Record RelapseRecord : Type :=
  { userId : string; timestamp : Timestamp; notes : string }.

(** The argument of [updateDoc]: the fields to overwrite. *)
Record Patch : Type :=
  { patch_lastCheckIn : option Timestamp;
    patch_streakDays : option Z }.

(** What [getUserProfile] returns: [{ id, ...data }]. *)
Record UserProfile (Coord : Type) : Type :=
  { id : string; data : UserDoc Coord }.
Arguments id {Coord} _.
Arguments data {Coord} _.

(** The calls the application issues to the backend. *)
Inductive Call (Coord : Type) : Type :=
| CreateAccount (email password : string)
| GetDoc (ref : string)
| SetUserDoc (ref : string) (d : UserDoc Coord)
| AddRelapse (r : RelapseRecord)
| UpdateDoc (ref : string) (p : Patch).
Arguments CreateAccount {Coord} _ _.
Arguments GetDoc {Coord} _.
Arguments SetUserDoc {Coord} _ _.
Arguments AddRelapse {Coord} _.
Arguments UpdateDoc {Coord} _ _.

(** The document store: the [users] collection keyed by document id, and
    the [relapses] collection, whose documents get fresh ids, in the order
    they were added. *)
Record Firestore (Coord : Type) : Type :=
  { users : gmap string (UserDoc Coord);
    relapses : list RelapseRecord }.
Arguments users {Coord} _.
Arguments relapses {Coord} _.

(** The world an operation runs in.  [dbReady] tells whether the
    module-level [db] handle was initialised.  [faults] scripts the
    backend: each call that reaches it takes the head, and [Some msg] makes
    that call throw an error with message [msg] (network failure, rejected
    write) without effect on the store.  [trace] records the calls issued,
    oldest first. *)
Record World (Coord : Type) : Type :=
  { firestore : Firestore Coord;
    dbReady : bool;
    faults : list (option string);
    trace : list (Call Coord) }.
Arguments firestore {Coord} _.
Arguments dbReady {Coord} _.
Arguments faults {Coord} _.
Arguments trace {Coord} _.

(** How a computation ends: with a value, or with a thrown error. *)
Inductive Completion (A : Type) : Type :=
| Normal (a : A)
| Throw (message : string).
Arguments Normal {A} _.
Arguments Throw {A} _.

(** ** Computations against the backend *)

Definition M (Coord A : Type) : Type :=
  World Coord -> Completion A * World Coord.

Definition ret {Coord A} (a : A) : M Coord A := fun w => (Normal a, w).

Definition throw {Coord A} (message : string) : M Coord A :=
  fun w => (Throw message, w).

Definition bind {Coord A B} (m : M Coord A) (k : A -> M Coord B) : M Coord B :=
  fun w =>
    match m w with
    | (Normal a, w') => k a w'
    | (Throw message, w') => (Throw message, w')
    end.

(** [try { body } catch (error) { handler(error.message) }] *)
Definition try_catch {Coord A} (body : M Coord A) (handler : string -> M Coord A)
  : M Coord A :=
  fun w =>
    match body w with
    | (Normal a, w') => (Normal a, w')
    | (Throw message, w') => handler message w'
    end.

Declare Scope js_scope.
Delimit Scope js_scope with js.
Notation "x <- m ;; k" := (bind m (fun x => k))
  (at level 100, m at next level, right associativity) : js_scope.
Notation "m ;;; k" := (bind m (fun _ => k))
  (at level 100, right associativity) : js_scope.

(** What the SDK throws when [doc] or [collection] is handed an
    uninitialised [db]. *)
Definition invalid_db_message : string :=
  "Expected first argument to collection() to be a CollectionReference, a DocumentReference or FirebaseFirestore".

(** What [updateDoc] throws when the referenced document does not exist. *)
Definition no_document_message (ref : string) : string :=
  "No document to update: projects/purepath-cd3bd/databases/(default)/documents/users/" ++ ref.

(** The ids the store is keyed by are plain document ids: not empty and
    without a slash.  For any other [id], [doc(db, 'users', id)] either
    throws ("Invalid document reference...", for the empty string and for
    an even number of segments) or names a document elsewhere than in
    [users]; such ids are outside of what [doc_users] describes, and the
    statements that depend on the difference assume [valid_id]. *)
Definition is_slash (c : Ascii.ascii) : bool := String.eqb (String c "") "/".

Definition valid_id (ref : string) : bool :=
  negb (String.eqb ref "") &&
  forallb (fun c => negb (is_slash c)) (String.list_ascii_of_string ref).

Section Backend.
Context {Coord : Type}.

Definition set_firestore (fs : Firestore Coord) (w : World Coord) : World Coord :=
  {| firestore := fs; dbReady := dbReady w; faults := faults w; trace := trace w |}.

(** The world after one more call has reached the backend. *)
Definition issued (c : Call Coord) (w : World Coord) : World Coord :=
  {| firestore := firestore w; dbReady := dbReady w;
     faults := tail (faults w); trace := trace w ++ [c] |}.

(** The fault, if any, the next call runs into. *)
Definition next_fault (w : World Coord) : option string :=
  match faults w with
  | Some message :: _ => Some message
  | _ => None
  end.

(** Issue the call [c]: it is recorded, and it throws when the backend
    is scripted to fail it. *)
Definition call (c : Call Coord) : M Coord unit :=
  fun w =>
    match next_fault w with
    | Some message => (Throw message, issued c w)
    | None => (Normal tt, issued c w)
    end.

Definition put_user (ref : string) (d : UserDoc Coord) : M Coord unit :=
  fun w =>
    (Normal tt,
     set_firestore {| users := <[ref := d]> (users (firestore w));
                      relapses := relapses (firestore w) |} w).

Definition put_relapse (r : RelapseRecord) : M Coord unit :=
  fun w =>
    (Normal tt,
     set_firestore {| users := users (firestore w);
                      relapses := relapses (firestore w) ++ [r] |} w).

(** [doc(db, 'users', id)], for a plain document id (see [valid_id]), and
    [collection(db, 'relapses')]: a reference, unless [db] is undefined. *)
Definition doc_users (ref : string) : M Coord string :=
  fun w => if dbReady w then (Normal ref, w) else (Throw invalid_db_message, w).

Definition collection_relapses : M Coord unit :=
  fun w => if dbReady w then (Normal tt, w) else (Throw invalid_db_message, w).

(** [getDoc(ref)]: the snapshot; [None] when [exists()] is false. *)
Definition getDoc (ref : string) : M Coord (option (UserDoc Coord)) :=
  (call (GetDoc ref) ;;;
   fun w => (Normal (users (firestore w) !! ref), w))%js.

Definition apply_patch (p : Patch) (d : UserDoc Coord) : UserDoc Coord :=
  {| username := username d; email := email d; location := location d;
     role := role d; joinedAt := joinedAt d;
     streakDays :=
       match patch_streakDays p with Some n => Some n | None => streakDays d end;
     lastCheckIn :=
       match patch_lastCheckIn p with Some t => Some t | None => lastCheckIn d end |}.

(** [updateDoc(ref, fields)]: overwrites the given fields of an existing
    document in one write; fails when there is no such document. *)
Definition updateDoc (ref : string) (p : Patch) : M Coord unit :=
  (call (UpdateDoc ref p) ;;;
   fun w =>
     match users (firestore w) !! ref with
     | Some d => put_user ref (apply_patch p d) w
     | None => (Throw (no_document_message ref), w)
     end)%js.

(** [setDoc(doc(db, 'users', ref), fields)]: creates or replaces. *)
Definition setDoc_user (ref : string) (d : UserDoc Coord) : M Coord unit :=
  (call (SetUserDoc ref d) ;;; put_user ref d)%js.

(** [setDoc(doc(collection(db, 'relapses')), fields)]: a new document. *)
Definition setDoc_relapse (r : RelapseRecord) : M Coord unit :=
  (call (AddRelapse r) ;;; put_relapse r)%js.

(** [createUserWithEmailAndPassword]: [uid] is the id the authentication
    service gives the new account. *)
Definition createUserWithEmailAndPassword (uid email password : string)
  : M Coord string :=
  (call (CreateAccount email password) ;;; ret uid)%js.

End Backend.

(** ** The operations of [utils/firebase] *)

Section Operations.
Context {Coord : Type}.

(** Whether [new GeoPoint(lat, lng)] accepts the coordinates: both finite,
    the latitude within -90 and 90, the longitude within -180 and 180. *)
Variable GeoPoint_ok : Coord -> Coord -> bool.

(** The offset of local time from UTC, in milliseconds, at a given
    instant (ECMAScript [LocalTZA]); it depends on the host's time zone
    and is left arbitrary. *)
Variable LocalTZA : Z -> Z.

Definition localDay (t : Z) : Z := Calendar.Day (t + LocalTZA t).
Definition localDate (t : Z) : Calendar.civil :=
  Calendar.civil_from_days (localDay t).

Definition getDate (t : Z) : Z := Calendar.date (localDate t).
Definition getMonth (t : Z) : Z := Calendar.month (localDate t).
Definition getFullYear (t : Z) : Z := Calendar.year (localDate t).

(** The two tests of [updateStreak], on the time values of the last
    check-in and of [new Date()]. *)
Definition isYesterday (lastCheckIn now : Z) : bool :=
  (getDate lastCheckIn =? getDate now - 1) &&
  (getMonth lastCheckIn =? getMonth now) &&
  (getFullYear lastCheckIn =? getFullYear now).

Definition isToday (lastCheckIn now : Z) : bool :=
  (getDate lastCheckIn =? getDate now) &&
  (getMonth lastCheckIn =? getMonth now) &&
  (getFullYear lastCheckIn =? getFullYear now).

(** [userData.lastCheckIn?.toDate() || new Date(0)] *)
Definition lastCheckInDate (userData : UserDoc Coord) : Z :=
  match lastCheckIn userData with
  | Some t => toDate t
  | None => 0
  end.

(** [userData.streakDays || 0]; the number is kept as an integer, which
    it is exactly while it is a safe integer (see [isSafeInteger]). *)
Definition streakDays_or_0 (userData : UserDoc Coord) : Z :=
  match streakDays userData with
  | Some n => n
  | None => 0
  end.

Definition failure (message : string) : JsObject :=
  [("success", VBool false); ("message", VStr message)].

(** [new GeoPoint(lat, lng)]; it throws on coordinates out of range.  The
    message, which names the offending value, is abridged: [register], the
    only caller, does not look at it. *)
Definition new_GeoPoint (lat lng : Coord) : M Coord (GeoPoint Coord) :=
  fun w =>
    if GeoPoint_ok lat lng
    then (Normal {| latitude := lat; longitude := lng |}, w)
    else (Throw "Latitude or longitude out of range", w).

(** [location ? new GeoPoint(location.lat, location.lng) : null] *)
Definition location_field (location : option (Coord * Coord))
  : M Coord (option (GeoPoint Coord)) :=
  match location with
  | Some (lat, lng) => (g <- new_GeoPoint lat lng ;; ret (Some g))%js
  | None => ret None
  end.

(** [register]; [joined] and [checked] are the two readings of
    [Timestamp.now()].  The toasts are not modelled. *)
Definition register (uid : string) (joined checked : Timestamp)
    (email password username : string) (location : option (Coord * Coord))
  : M Coord bool :=
  try_catch
    (uid <- createUserWithEmailAndPassword uid email password ;;
     ref <- doc_users uid ;;
     geo <- location_field location ;;
     setDoc_user ref
       {| username := Some username;
          email := Some email;
          location := geo;
          role := Some member;
          joinedAt := Some joined;
          streakDays := Some 0;
          lastCheckIn := Some checked |} ;;;
     ret true)%js
    (fun _ => ret false).

Definition empty_doc : UserDoc Coord :=
  {| username := None; email := None; location := None; role := None;
     joinedAt := None; streakDays := None; lastCheckIn := None |}.

(** [getUserProfile]; the declared result type is [UserProfile | null]. *)
Definition getUserProfile (userId : string) : M Coord (option (UserProfile Coord)) :=
  fun w =>
    if negb (dbReady w) then
      (Normal (Some {| id := userId; data := empty_doc |}), w)
    else
      try_catch
        (docRef <- doc_users userId ;;
         docSnap <- getDoc docRef ;;
         match docSnap with
         | Some d => ret (Some {| id := docRef; data := d |})
         | None => ret (Some {| id := userId; data := empty_doc |})
         end)%js
        (fun _ => ret (Some {| id := userId; data := empty_doc |}))
        w.

(** [updateStreak]; [now] is the time value of [new Date()] and [stamp]
    the reading of [Timestamp.now()] in the update. *)
Definition updateStreak (now : Z) (stamp : Timestamp) (userId : string)
  : M Coord JsObject :=
  try_catch
    (userRef <- doc_users userId ;;
     userDoc <- getDoc userRef ;;
     match userDoc with
     | Some userData =>
         let lastCheckIn := lastCheckInDate userData in
         let isYesterday := isYesterday lastCheckIn now in
         let isToday := isToday lastCheckIn now in
         if isToday then
           ret [("success", VBool true);
                ("streakDays", num_or_undefined (streakDays userData));
                ("message", VStr "Already checked in today")]
         else
           let streakDays := streakDays_or_0 userData in
           let streakDays :=
             if isYesterday then streakDays + 1
             else if negb isToday then 1
             else streakDays in
           updateDoc userRef
             {| patch_lastCheckIn := Some stamp;
                patch_streakDays := Some streakDays |} ;;;
           ret [("success", VBool true);
                ("streakDays", VNum streakDays);
                ("message", VStr "Streak updated successfully")]
     | None => ret (failure "User not found")
     end)%js
    (fun message => ret (failure message)).

(** [logRelapse]; [recorded] and [reset] are the two readings of
    [Timestamp.now()]. *)
Definition logRelapse (recorded reset : Timestamp) (userId : string)
    (notes : option string) : M Coord JsObject :=
  try_catch
    (collection_relapses ;;;
     setDoc_relapse
       {| userId := userId;
          timestamp := recorded;
          notes := match notes with Some s => s | None => "" end |} ;;;
     userRef <- doc_users userId ;;
     updateDoc userRef
       {| patch_lastCheckIn := Some reset; patch_streakDays := Some 0 |} ;;;
     ret [("success", VBool true);
          ("message",
           VStr "Progress reset. Remember: every moment is a new opportunity.")])%js
    (fun message => ret (failure message)).

(** The two operations that touch the streak of an existing profile. *)
Inductive Operation : Type :=
| CheckIn (now : Z) (stamp : Timestamp) (userId : string)
| Relapse (recorded reset : Timestamp) (userId : string) (notes : option string).

Definition run (op : Operation) : M Coord JsObject :=
  match op with
  | CheckIn now stamp userId => updateStreak now stamp userId
  | Relapse recorded reset userId notes => logRelapse recorded reset userId notes
  end.

Definition write_time (op : Operation) : Timestamp :=
  match op with
  | CheckIn _ stamp _ => stamp
  | Relapse _ reset _ _ => reset
  end.

Definition subject (op : Operation) : string :=
  match op with
  | CheckIn _ _ userId => userId
  | Relapse _ _ userId _ => userId
  end.

End Operations.

(** ** Derived notions used in the statements *)

Section Derived.
Context {Coord : Type}.
Variable tz : Z -> Z.

(** The streak a check-in at [now] writes for the stored document [d]. *)
Definition next_streak (d : UserDoc Coord) (now : Z) : Z :=
  if isYesterday tz (lastCheckInDate d) now then streakDays_or_0 d + 1 else 1.

Definition checkin_patch (d : UserDoc Coord) (now : Z) (stamp : Timestamp) : Patch :=
  {| patch_lastCheckIn := Some stamp; patch_streakDays := Some (next_streak d now) |}.

Definition already_checked_in (d : UserDoc Coord) : JsObject :=
  [("success", VBool true);
   ("streakDays", num_or_undefined (streakDays d));
   ("message", VStr "Already checked in today")].

Definition streak_updated (n : Z) : JsObject :=
  [("success", VBool true);
   ("streakDays", VNum n);
   ("message", VStr "Streak updated successfully")].

Definition relapse_logged : JsObject :=
  [("success", VBool true);
   ("message", VStr "Progress reset. Remember: every moment is a new opportunity.")].

Definition relapse_patch (reset : Timestamp) : Patch :=
  {| patch_lastCheckIn := Some reset; patch_streakDays := Some 0 |}.

Definition relapse_record (recorded : Timestamp) (userId : string)
    (notes : option string) : RelapseRecord :=
  {| userId := userId; timestamp := recorded;
     notes := match notes with Some s => s | None => "" end |}.

(** The document [register] writes. *)
Definition new_profile (joined checked : Timestamp) (email username : string)
    (location : option (Coord * Coord)) : UserDoc Coord :=
  {| username := Some username;
     email := Some email;
     location :=
       match location with
       | Some (lat, lng) => Some {| latitude := lat; longitude := lng |}
       | None => None
       end;
     role := Some member;
     joinedAt := Some joined;
     streakDays := Some 0;
     lastCheckIn := Some checked |}.

(** A call that writes to a document of [users]. *)
Definition is_user_write (c : Call Coord) : bool :=
  match c with
  | SetUserDoc _ _ | UpdateDoc _ _ => true
  | _ => false
  end.

(** What is asked of each call of an operation on the streak of [ref]
    at time [stamp]: an update goes to [ref] and carries both
    [lastCheckIn], set to [stamp], and [streakDays]; no user document is
    replaced wholesale. *)
Definition writes_both (ref : string) (stamp : Timestamp) (c : Call Coord) : Prop :=
  match c with
  | UpdateDoc ref' p =>
      ref' = ref /\ patch_lastCheckIn p = Some stamp /\
      is_Some (patch_streakDays p)
  | SetUserDoc _ _ => False
  | _ => True
  end.

End Derived.

(** ** Concrete inputs, in a UTC host *)

Module Examples.

Definition UTC : Z -> Z := fun _ => 0.

(** No coordinates are given in these examples. *)
Definition any_coordinates : unit -> unit -> bool := fun _ _ => true.

(** The time value of year-month-day (month 1-based) at [h] o'clock UTC. *)
Definition at_utc (y m d h : Z) : Z :=
  Calendar.days_from_civil (Calendar.Civil y (m - 1) d) * Calendar.msPerDay
  + h * 3600000.

Definition profile (streak : option Z) (last : option Timestamp) : UserDoc unit :=
  {| username := Some "sam"; email := Some "sam@example.org"; location := None;
     role := Some member; joinedAt := Some (at_utc 2023 11 5 8);
     streakDays := streak; lastCheckIn := last |}.

Definition world_of (docs : list (string * UserDoc unit))
    (script : list (option string)) : World unit :=
  {| firestore := {| users := list_to_map docs; relapses := [] |};
     dbReady := true; faults := script; trace := [] |}.

(** Streak 5, last check-in on 2024-03-10 at 09:00. *)
Definition march10 : World unit :=
  world_of [("u1", profile (Some 5) (Some (at_utc 2024 3 10 9)))] [].

(** Streak 7, last check-in on 2024-01-31 at 21:00. *)
Definition january31 : World unit :=
  world_of [("u1", profile (Some 7) (Some (at_utc 2024 1 31 21)))] [].

(** Streak 4, no check-in recorded. *)
Definition never_checked_in : World unit :=
  world_of [("u1", profile (Some 4) None)] [].

(** The backend fails the first call, or answers the read and fails the
    write. *)
Definition read_down : World unit :=
  world_of [("u1", profile (Some 5) (Some (at_utc 2024 3 10 9)))]
           [Some "Failed to get document because the client is offline."].

Definition write_rejected : World unit :=
  world_of [("u1", profile (Some 5) (Some (at_utc 2024 3 10 9)))]
           [None; Some "Missing or insufficient permissions."].

(** Streak 5, last check-in on 2024-03-01 at 09:00. *)
Definition march1 : World unit :=
  world_of [("u1", profile (Some 5) (Some (at_utc 2024 3 1 9)))] [].

Definition no_users : World unit := world_of [] [].

(** The world after "u9" registered on 2024-05-20 at 14:00. *)
Definition just_registered : World unit :=
  snd (register any_coordinates "u9" (at_utc 2024 5 20 14) (at_utc 2024 5 20 14)
         "ann@example.org" "secret" "ann" None no_users).

(** A stored document without any field. *)
Definition bare_user : World unit := world_of [("ghost", empty_doc)] [].

End Examples.

(** ** Further operations of [utils/firebase] *)

(** An entry of the community map: [{ id, location }]. *)
Record CommunityLocation (Coord : Type) : Type :=
  { member_id : string; member_location : GeoPoint Coord }.
Arguments member_id {Coord} _.
Arguments member_location {Coord} _.

Section FurtherOperations.
Context {Coord : Type}.

(** [collection(db, 'users')] *)
Definition collection_users : M Coord unit :=
  fun w => if dbReady w then (Normal tt, w) else (Throw invalid_db_message, w).

(** The world after a query has reached the backend: the query takes its
    turn in the fault script; [trace] keeps the calls on single documents
    and on accounts. *)
Definition queried (w : World Coord) : World Coord :=
  {| firestore := firestore w; dbReady := dbReady w;
     faults := tail (faults w); trace := trace w |}.

(** The order of a query without [orderBy]: by document id. *)
Definition by_id (a b : string * UserDoc Coord) : Prop :=
  String.leb (fst a) (fst b) = true.

Global Instance by_id_dec a b : Decision (by_id a b).
Proof. unfold by_id. apply _. Defined.

(** [getDocs(collection(db, 'users'))]: every document with its id. *)
Definition getDocs_users : M Coord (list (string * UserDoc Coord)) :=
  fun w =>
    match next_fault w with
    | Some message => (Throw message, queried w)
    | None =>
        (Normal (merge_sort by_id (map_to_list (users (firestore w)))),
         queried w)
    end.

(** The body of the [forEach] of [getCommunityLocations]: a document with
    a [location] contributes its id and that location, nothing else. *)
Definition community_entry (doc : string * UserDoc Coord)
  : option (CommunityLocation Coord) :=
  match location (snd doc) with
  | Some l => Some {| member_id := fst doc; member_location := l |}
  | None => None
  end.

(** [getCommunityLocations] *)
Definition getCommunityLocations : M Coord (list (CommunityLocation Coord)) :=
  try_catch
    (collection_users ;;;
     querySnapshot <- getDocs_users ;;
     ret (omap community_entry querySnapshot))%js
    (fun _ => ret []).

(** [checkUserRole]: [userProfile?.role], and [null] when something is
    thrown. *)
Definition checkUserRole (userId : string) : M Coord (option Role) :=
  try_catch
    (userProfile <- getUserProfile userId ;;
     ret (match userProfile with
          | Some p => role (data p)
          | None => None
          end))%js
    (fun _ => ret None).

End FurtherOperations.

(** ** Histories of operations *)

Section Histories.
Context {Coord : Type}.
Variable GeoPoint_ok : Coord -> Coord -> bool.
Variable tz : Z -> Z.

(** One step of the life of the store: a check-in or a relapse, or a
    registration. *)
Inductive Action : Type :=
| Act (op : Operation)
| Register (uid : string) (joined checked : Timestamp)
    (email password username : string) (location : option (Coord * Coord)).

Definition perform (a : Action) (w : World Coord) : World Coord :=
  match a with
  | Act op => snd (run tz op w)
  | Register uid joined checked email password username location =>
      snd (register GeoPoint_ok uid joined checked email password username
             location w)
  end.

Definition history (actions : list Action) (w : World Coord) : World Coord :=
  fold_left (fun w a => perform a w) actions w.

(** The two clock readings of a check-in fall on the same local date. *)
Definition same_day_clock (a : Action) : Prop :=
  match a with
  | Act (CheckIn now stamp _) => localDate tz (toDate stamp) = localDate tz now
  | _ => True
  end.

(** Every stored streak lies between 0 and the day of the month of the
    last check-in stored with it. *)
Definition streak_within_month (w : World Coord) : Prop :=
  forall uid d,
    users (firestore w) !! uid = Some d ->
    0 <= streakDays_or_0 d <= getDate tz (lastCheckInDate d).

End Histories.

(** Calls are made on whatever host runs them, and each host reads its own
    time zone: a step of such a history comes with the local-time offset
    of its host. *)
Section HistoriesAcrossZones.
Context {Coord : Type}.
Variable GeoPoint_ok : Coord -> Coord -> bool.

Definition history_across (steps : list ((Z -> Z) * Action (Coord := Coord)))
    (w : World Coord) : World Coord :=
  fold_left (fun w step => perform GeoPoint_ok (fst step) (snd step) w) steps w.

(** Two zones in which every instant has the same calendar date. *)
Definition same_local_dates (tz1 tz2 : Z -> Z) : Prop :=
  forall t, localDate tz1 t = localDate tz2 t.

(** A step taken in a zone that has the calendar dates of [tz], with the
    two clock readings of a check-in on the same date. *)
Definition step_at_home (tz : Z -> Z)
    (step : (Z -> Z) * Action (Coord := Coord)) : Prop :=
  same_local_dates (fst step) tz /\ same_day_clock (fst step) (snd step).

End HistoriesAcrossZones.

(** ** More concrete inputs *)

Module MoreExamples.
Import Examples.

(** The profile of [march10], the module-level [db] left undefined. *)
Definition db_down : World unit :=
  {| firestore := firestore march10; dbReady := false; faults := []; trace := [] |}.

(** The world after the check-in of 2024-03-11 at 08:00. *)
Definition after_march11 : World unit :=
  snd (updateStreak UTC (at_utc 2024 3 11 8) (at_utc 2024 3 11 8) "u1" march10).

(** The world after a relapse logged on 2024-03-12 at 22:00. *)
Definition after_relapse : World unit :=
  snd (logRelapse (at_utc 2024 3 12 22) (at_utc 2024 3 12 22) "u1"
         (Some "late night") march10).

(** Two users, of whom only "ada" shares a location. *)
Definition with_locations : World unit :=
  world_of
    [("bob", profile (Some 2) (Some (at_utc 2024 3 10 9)));
     ("ada",
      {| username := Some "ada"; email := Some "ada@example.org";
         location := Some {| latitude := tt; longitude := tt |};
         role := Some admin; joinedAt := Some (at_utc 2023 1 2 3);
         streakDays := Some 12; lastCheckIn := Some (at_utc 2024 3 12 7) |})]
    [].

(** "u9" registers on 2024-05-30, checks in on the 31st, twice, and on
    the 1st of June, relapses that day, and checks in on the 2nd; the
    backend fails one call on the way. *)
Definition a_week : list (Action (Coord := unit)) :=
  [Register "u9" (at_utc 2024 5 30 14) (at_utc 2024 5 30 14)
     "ann@example.org" "secret" "ann" None;
   Act (CheckIn (at_utc 2024 5 31 7) (at_utc 2024 5 31 7) "u9");
   Act (CheckIn (at_utc 2024 5 31 20) (at_utc 2024 5 31 20) "u9");
   Act (CheckIn (at_utc 2024 6 1 7) (at_utc 2024 6 1 7) "u9");
   Act (Relapse (at_utc 2024 6 1 23) (at_utc 2024 6 1 23) "u9" None);
   Act (CheckIn (at_utc 2024 6 2 9) (at_utc 2024 6 2 9) "u9")].

(** The same week, every call made from the same UTC host. *)
Definition a_week_at_home : list ((Z -> Z) * Action (Coord := unit)) :=
  (fun a => (UTC, a)) <$> a_week.

(** A zone fourteen hours ahead of UTC.  Streak 31 with a last check-in
    on 2024-01-30 at 11:00 UTC, which there is the 31st at 01:00. *)
Definition UTC_plus_14 : Z -> Z := fun _ => 14 * 3600000.

Definition abroad : World unit :=
  world_of [("u1", profile (Some 31) (Some (at_utc 2024 1 30 11)))] [].

(** Coordinates in whole degrees, and an empty store for them. *)
Definition degrees_ok (lat lng : Z) : bool :=
  (-90 <=? lat) && (lat <=? 90) && (-180 <=? lng) && (lng <=? 180).

Definition nobody_yet : World Z :=
  {| firestore := {| users := ∅; relapses := [] |};
     dbReady := true; faults := []; trace := [] |}.

Definition flaky_start : World unit :=
  world_of [] [None; None; None; Some "Failed to get document because the client is offline."].

(** Streak 30, last check-in on 2024-01-30; the check-in of the 31st is
    read at 23:59:59.999 and stamped a millisecond into February. *)
Definition january30 : World unit :=
  world_of [("u1", profile (Some 30) (Some (at_utc 2024 1 30 9)))] [].

Definition after_midnight_race : World unit :=
  snd (updateStreak UTC (at_utc 2024 2 1 0 - 1) (at_utc 2024 2 1 0 + 1) "u1"
         january30).

End MoreExamples.

(** * Properties *)

(** ** The calendar *)

Module CalendarFacts.
Import Calendar.

Lemma civil_eqb_eq a b : civil_eqb a b = true <-> a = b.
Proof.
  destruct a, b; unfold civil_eqb; cbn [year month date].
  rewrite !andb_true_iff, !Z.eqb_eq. split.
  - intros [[-> ->] ->]; reflexivity.
  - intros [= -> -> ->]; auto.
Qed.

Lemma era_check_iter_spec (n : nat) z0 b :
  snd (Nat.iter n era_check_step (z0, b)) = true ->
  fst (Nat.iter n era_check_step (z0, b)) = z0 + Z.of_nat n /\
  b = true /\
  forall z, z0 <= z < z0 + Z.of_nat n -> era_check_at z = true.
Proof.
  induction n as [|n IH]; intros H.
  - cbn in *. repeat split; [lia | exact H | intros; lia].
  - rewrite Nat.iter_succ in H |- *.
    destruct (Nat.iter n era_check_step (z0, b)) as [zn bn].
    unfold era_check_step in H |- *. cbn [fst snd] in *.
    apply andb_true_iff in H as [H1 H2].
    destruct (IH H1) as (Hf & Hb & Hall).
    repeat split; [lia | exact Hb |].
    intros z Hz. destruct (Z.eq_dec z (z0 + Z.of_nat n)) as [->|Hne].
    + rewrite <- Hf. exact H2.
    + apply Hall. lia.
Qed.

Lemma era_check_upto_spec n z0 :
  era_check_upto n z0 = true ->
  forall z, z0 <= z < z0 + Z.pos n -> era_check_at z = true.
Proof.
  unfold era_check_upto. rewrite Pos2Nat.inj_iter. intros H z Hz.
  apply (era_check_iter_spec _ _ _ H). lia.
Qed.

Lemma era_check_one_era :
  era_check_upto 146097 (-719468) = true.
Proof. vm_cast_no_check (eq_refl true). Qed.

(** Every day number is a whole number of eras away from one of the era
    that was checked. *)
Lemma era_split z :
  exists z0 k, z = z0 + 146097 * k /\ era_check_at z0 = true.
Proof.
  exists (z - 146097 * ((z + 719468) / 146097)), ((z + 719468) / 146097).
  split; [lia|].
  apply (era_check_upto_spec _ _ era_check_one_era).
  pose proof (Z.mod_pos_bound (z + 719468) 146097 ltac:(lia)) as Hb.
  pose proof (Z.div_mod (z + 719468) 146097 ltac:(lia)) as Hd.
  lia.
Qed.

(** Moving by whole eras shifts the year by 400 and nothing else. *)
Lemma civil_from_days_era z k :
  civil_from_days (z + 146097 * k) =
  let c := civil_from_days z in
  {| year := year c + 400 * k; month := month c; date := date c |}.
Proof.
  unfold civil_from_days; cbn zeta.
  replace (z + 146097 * k + 719468) with (z + 719468 + k * 146097) by lia.
  rewrite Z.div_add, Z.mod_add by lia.
  cbn [year month date].
  f_equal. destruct (_ <=? 2); lia.
Qed.

Lemma days_from_civil_era y m d k :
  days_from_civil (Civil (y + 400 * k) m d) =
  days_from_civil (Civil y m d) + 146097 * k.
Proof.
  unfold days_from_civil; cbn [year month date]; cbn zeta.
  destruct (m + 1 <=? 2).
  - replace (y + 400 * k - 1) with (y - 1 + k * 400) by lia.
    rewrite Z.div_add, Z.mod_add by lia. lia.
  - replace (y + 400 * k) with (y + k * 400) by lia.
    rewrite Z.div_add, Z.mod_add by lia. lia.
Qed.

Lemma is_leap_era y k : is_leap (y + 400 * k) = is_leap y.
Proof.
  unfold is_leap.
  replace (y + 400 * k) with (y + (100 * k) * 4) at 1 by lia.
  replace (y + 400 * k) with (y + (4 * k) * 100) at 1 by lia.
  replace (y + 400 * k) with (y + k * 400) by lia.
  rewrite !Z.mod_add by lia. reflexivity.
Qed.

Lemma tomorrow_era y m d k :
  tomorrow (Civil (y + 400 * k) m d) =
  let c := tomorrow (Civil y m d) in
  {| year := year c + 400 * k; month := month c; date := date c |}.
Proof.
  unfold tomorrow, days_in_month; cbn [year month date].
  rewrite is_leap_era.
  destruct (d <? _); [reflexivity|].
  destruct (m <? 11); cbn; f_equal; lia.
Qed.

(** Every day number is recovered from its calendar date. *)
Theorem days_from_civil_from_days z :
  days_from_civil (civil_from_days z) = z.
Proof.
  destruct (era_split z) as (z0 & k & -> & H0).
  apply andb_true_iff in H0 as [H0 _]. apply Z.eqb_eq in H0.
  rewrite civil_from_days_era. cbn zeta.
  destruct (civil_from_days z0) as [y m d] eqn:E.
  cbn [year month date]. rewrite days_from_civil_era, H0. reflexivity.
Qed.

(** The date of the next day number is the next date of the calendar. *)
Theorem civil_from_days_succ z :
  civil_from_days (z + 1) = tomorrow (civil_from_days z).
Proof.
  destruct (era_split z) as (z0 & k & -> & H0).
  apply andb_true_iff in H0 as [_ H0]. apply civil_eqb_eq in H0.
  replace (z0 + 146097 * k + 1) with (z0 + 1 + 146097 * k) by lia.
  rewrite !civil_from_days_era. cbn zeta. rewrite H0.
  destruct (civil_from_days z0) as [y m d].
  cbn [year month date]. rewrite tomorrow_era. reflexivity.
Qed.

Example epoch_date : civil_from_days 0 = Civil 1970 0 1.
Proof. reflexivity. Qed.

Example day_before_epoch : civil_from_days (-1) = Civil 1969 11 31.
Proof. reflexivity. Qed.

Example leap_day_2024 : civil_from_days 19782 = Civil 2024 1 29.
Proof. reflexivity. Qed.

Example no_leap_day_1900 :
  civil_from_days (-25509) = Civil 1900 1 28 /\
  civil_from_days (-25508) = Civil 1900 2 1.
Proof. split; reflexivity. Qed.

Corollary civil_from_days_inj z1 z2 :
  civil_from_days z1 = civil_from_days z2 -> z1 = z2.
Proof.
  intros H. rewrite <- (days_from_civil_from_days z1), H.
  apply days_from_civil_from_days.
Qed.

(** Within one month and year the day number is the day of the month
    plus a constant. *)
Lemma days_from_civil_date y m d1 d2 :
  days_from_civil (Civil y m d1) - days_from_civil (Civil y m d2) = d1 - d2.
Proof. unfold days_from_civil; cbn [year month date]; cbn zeta. lia. Qed.


End CalendarFacts.

(** ** The day tests of [updateStreak] *)

Section DayTests.
Variable tz : Z -> Z.
Import Calendar CalendarFacts.

Lemma localDate_fields t :
  localDate tz t = Civil (getFullYear tz t) (getMonth tz t) (getDate tz t).
Proof.
  unfold getFullYear, getMonth, getDate.
  destruct (localDate tz t); reflexivity.
Qed.

Lemma localDay_of_fields t :
  localDay tz t =
  days_from_civil (Civil (getFullYear tz t) (getMonth tz t) (getDate tz t)).
Proof.
  rewrite <- localDate_fields. unfold localDate.
  symmetry. apply days_from_civil_from_days.
Qed.

(** [isToday] holds exactly when both instants have the same local
    calendar date, that is, the same local day number. *)
Lemma isToday_true_iff a b :
  isToday tz a b = true <-> localDate tz a = localDate tz b.
Proof.
  unfold isToday. rewrite !andb_true_iff, !Z.eqb_eq.
  rewrite (localDate_fields a), (localDate_fields b). split.
  - intros [[-> ->] ->]. reflexivity.
  - intros [= -> -> ->]. auto.
Qed.

Lemma isToday_localDay a b :
  isToday tz a b = true <-> localDay tz a = localDay tz b.
Proof.
  rewrite isToday_true_iff. unfold localDate. split.
  - apply civil_from_days_inj.
  - intros ->. reflexivity.
Qed.

(** [isYesterday] holds exactly when the last check-in is one day
    before [now] and both fall in the same month of the same year. *)
Lemma isYesterday_true_iff a b :
  isYesterday tz a b = true <->
  localDay tz a + 1 = localDay tz b /\ getMonth tz a = getMonth tz b /\
  getFullYear tz a = getFullYear tz b.
Proof.
  unfold isYesterday. rewrite !andb_true_iff, !Z.eqb_eq.
  rewrite (localDay_of_fields a), (localDay_of_fields b).
  pose proof (days_from_civil_date (getFullYear tz b) (getMonth tz b)
                (getDate tz a) (getDate tz b)) as Hlin.
  split.
  - intros [[Hd Hm] Hy]. rewrite Hm, Hy. repeat split. lia.
  - intros (Hd & Hm & Hy). rewrite Hm, Hy in Hd. repeat split; auto. lia.
Qed.

(** A gap of two days or more is neither today nor yesterday. *)
Lemma gap_not_today a b :
  localDay tz a + 2 <= localDay tz b -> isToday tz a b = false.
Proof.
  intros H. destruct (isToday tz a b) eqn:E; [|reflexivity].
  apply isToday_localDay in E. lia.
Qed.

Lemma gap_not_yesterday a b :
  localDay tz a + 2 <= localDay tz b -> isYesterday tz a b = false.
Proof.
  intros H. destruct (isYesterday tz a b) eqn:E; [|reflexivity].
  apply isYesterday_true_iff in E. lia.
Qed.

Lemma day_before_not_today a b :
  localDay tz a + 1 = localDay tz b -> isToday tz a b = false.
Proof.
  intros H. destruct (isToday tz a b) eqn:E; [|reflexivity].
  apply isToday_localDay in E. lia.
Qed.

Lemma other_month_not_yesterday a b :
  getMonth tz a <> getMonth tz b -> isYesterday tz a b = false.
Proof.
  intros H. destruct (isYesterday tz a b) eqn:E; [|reflexivity].
  apply isYesterday_true_iff in E. tauto.
Qed.

Lemma other_date_not_today a b :
  localDate tz a <> localDate tz b -> isToday tz a b = false.
Proof.
  intros H. destruct (isToday tz a b) eqn:E; [|reflexivity].
  apply isToday_true_iff in E. contradiction.
Qed.

(** One day later is the next date of the calendar; after the last day
    of a month that is the first of another month, where [isYesterday]
    cannot hold. *)
Lemma next_day_date a b :
  localDay tz a + 1 = localDay tz b ->
  localDate tz b = tomorrow (localDate tz a).
Proof.
  intros H. unfold localDate. rewrite <- H. apply civil_from_days_succ.
Qed.

Lemma month_end_not_yesterday a b :
  localDay tz a + 1 = localDay tz b ->
  getDate tz a = days_in_month (getFullYear tz a) (getMonth tz a) ->
  getMonth tz a <> getMonth tz b /\ isYesterday tz a b = false.
Proof.
  intros Hday Hend.
  assert (Hm : getMonth tz a <> getMonth tz b).
  { unfold getMonth at 2. rewrite (next_day_date _ _ Hday), localDate_fields.
    unfold tomorrow. cbn [year month date]. rewrite Hend, Z.ltb_irrefl.
    destruct (getMonth tz a <? 11) eqn:E; cbn [month]; lia. }
  split; [exact Hm | apply other_month_not_yesterday; exact Hm].
Qed.

End DayTests.

(** ** What each operation does, path by path *)

Section Runs.
Context {Coord : Type}.
Variable tz : Z -> Z.
Implicit Types (w : World Coord) (d : UserDoc Coord).

Ltac unfold_ops :=
  repeat progress unfold updateStreak, logRelapse, register, getUserProfile, try_catch, bind,
    ret, doc_users, collection_relapses, getDoc, updateDoc, setDoc_user,
    setDoc_relapse, createUserWithEmailAndPassword, call, put_user,
    put_relapse.

Lemma updateStreak_run now stamp uid w :
  updateStreak tz now stamp uid w =
  if dbReady w then
    let w1 := issued (GetDoc uid) w in
    match next_fault w with
    | Some message => (Normal (failure message), w1)
    | None =>
        match users (firestore w) !! uid with
        | None => (Normal (failure "User not found"), w1)
        | Some d =>
            if isToday tz (lastCheckInDate d) now then
              (Normal (already_checked_in d), w1)
            else
              let p := checkin_patch tz d now stamp in
              let w2 := issued (UpdateDoc uid p) w1 in
              match next_fault w1 with
              | Some message => (Normal (failure message), w2)
              | None =>
                  (Normal (streak_updated (next_streak tz d now)),
                   snd (put_user uid (apply_patch p d) w2))
              end
        end
    end
  else (Normal (failure invalid_db_message), w).
Proof.
  unfold_ops. destruct (dbReady w); [|reflexivity].
  destruct (next_fault w); [reflexivity|]. cbn [firestore issued].
  destruct (users (firestore w) !! uid) as [d|] eqn:E; [|reflexivity].
  destruct (isToday tz (lastCheckInDate d) now) eqn:Et; [reflexivity|].
  unfold checkin_patch, next_streak. cbn [negb]. cbn zeta.
  match goal with |- context [next_fault ?x] => destruct (next_fault x) end;
    [reflexivity|].
  cbn [firestore issued set_firestore users]. rewrite E. reflexivity.
Qed.

Lemma logRelapse_run recorded reset uid notes w :
  logRelapse recorded reset uid notes w =
  if dbReady w then
    let r := relapse_record recorded uid notes in
    let w1 := issued (AddRelapse r) w in
    match next_fault w with
    | Some message => (Normal (failure message), w1)
    | None =>
        let w2 := snd (put_relapse r w1) in
        let p := relapse_patch reset in
        let w3 := issued (UpdateDoc uid p) w2 in
        match next_fault w2 with
        | Some message => (Normal (failure message), w3)
        | None =>
            match users (firestore w) !! uid with
            | Some d =>
                (Normal relapse_logged, snd (put_user uid (apply_patch p d) w3))
            | None => (Normal (failure (no_document_message uid)), w3)
            end
        end
    end
  else (Normal (failure invalid_db_message), w).
Proof.
  unfold_ops. unfold next_fault, relapse_record, relapse_patch.
  destruct (dbReady w) eqn:Edb; [|reflexivity].
  destruct (users (firestore w) !! uid) eqn:Eu;
    destruct (faults w) as [|[m|] [|[m'|] fs]] eqn:Ef;
    repeat progress
      (cbn [faults dbReady firestore users relapses issued set_firestore snd tail];
       rewrite ?Edb, ?Ef, ?Eu);
    reflexivity.
Qed.

Lemma register_run GeoPoint_ok uid joined checked mail password name location w :
  register GeoPoint_ok uid joined checked mail password name location w =
  let w1 := issued (CreateAccount mail password) w in
  match next_fault w with
  | Some _ => (Normal false, w1)
  | None =>
      if dbReady w
         && match location with
            | Some (lat, lng) => GeoPoint_ok lat lng
            | None => true
            end
      then
        let d := new_profile joined checked mail name location in
        let w2 := issued (SetUserDoc uid d) w1 in
        match next_fault w1 with
        | Some _ => (Normal false, w2)
        | None => (Normal true, snd (put_user uid d w2))
        end
      else (Normal false, w1)
  end.
Proof.
  unfold_ops. unfold location_field, new_GeoPoint, next_fault, new_profile.
  unfold_ops.
  destruct location as [[lat lng]|]; [destruct (GeoPoint_ok lat lng)|];
    destruct (dbReady w) eqn:Edb;
    destruct (faults w) as [|[m|] [|[m'|] fs]] eqn:Ef;
    repeat progress
      (cbn [faults dbReady firestore users relapses issued set_firestore snd tail
            andb];
       rewrite ?Edb, ?Ef);
    reflexivity.
Qed.

Lemma getUserProfile_run uid w :
  getUserProfile uid w =
  if dbReady w then
    let w1 := issued (GetDoc uid) w in
    match next_fault w with
    | Some _ => (Normal (Some {| id := uid; data := empty_doc |}), w1)
    | None =>
        match users (firestore w) !! uid with
        | Some d => (Normal (Some {| id := uid; data := d |}), w1)
        | None => (Normal (Some {| id := uid; data := empty_doc |}), w1)
        end
    end
  else (Normal (Some {| id := uid; data := empty_doc |}), w).
Proof.
  unfold_ops. destruct (dbReady w); [|reflexivity]. cbn [negb].
  destruct (next_fault w); [reflexivity|]. cbn [firestore issued].
  destruct (users (firestore w) !! uid); reflexivity.
Qed.

End Runs.

(** ** Check-ins *)

Section CheckIn.
Context {Coord : Type}.
Variable tz : Z -> Z.
Implicit Types (w : World Coord) (d : UserDoc Coord) (r : JsObject).

(** A check-in that reports success found the profile and either left it
    alone, on a day already checked in, or rewrote it. *)
Lemma updateStreak_success now stamp uid w r w' :
  updateStreak tz now stamp uid w = (Normal r, w') ->
  prop r "success" = VBool true ->
  exists d,
    users (firestore w) !! uid = Some d /\
    ((isToday tz (lastCheckInDate d) now = true /\
      r = already_checked_in d /\ w' = issued (GetDoc uid) w) \/
     (isToday tz (lastCheckInDate d) now = false /\
      r = streak_updated (next_streak tz d now) /\
      users (firestore w') =
        <[uid := apply_patch (checkin_patch tz d now stamp) d]>
          (users (firestore w)) /\
      relapses (firestore w') = relapses (firestore w) /\
      trace w' =
        trace w ++ [GetDoc uid; UpdateDoc uid (checkin_patch tz d now stamp)])).
Proof.
  rewrite updateStreak_run. intros Hrun Hs.
  destruct (dbReady w); [|injection Hrun as <- <-; cbn in Hs; discriminate Hs].
  cbn zeta in Hrun.
  destruct (next_fault w); [injection Hrun as <- <-; cbn in Hs; discriminate Hs|].
  destruct (users (firestore w) !! uid) as [d|];
    [|injection Hrun as <- <-; cbn in Hs; discriminate Hs].
  exists d. split; [reflexivity|].
  destruct (isToday tz (lastCheckInDate d) now).
  - left. injection Hrun as <- <-. auto.
  - right. destruct (next_fault (issued (GetDoc uid) w));
      [injection Hrun as <- <-; cbn in Hs; discriminate Hs|].
    injection Hrun as <- <-. cbn. rewrite <- app_assoc. auto.
Qed.

(** C1 (amended): when the stored [lastCheckIn] falls on the local
    calendar date of [now] and the read is answered, [updateStreak]
    returns the object with [success: true], the stored [streakDays]
    as it is and the message ['Already checked in today']; the object has
    no [changed] property; the only call issued is the read, and the
    store is left as it was. *)
Theorem updateStreak_same_day now stamp uid w d :
  dbReady w = true ->
  next_fault w = None ->
  users (firestore w) !! uid = Some d ->
  localDate tz (lastCheckInDate d) = localDate tz now ->
  exists r w',
    updateStreak tz now stamp uid w = (Normal r, w') /\
    r = [("success", VBool true);
         ("streakDays", num_or_undefined (streakDays d));
         ("message", VStr "Already checked in today")] /\
    prop r "changed" = VUndefined /\
    firestore w' = firestore w /\
    trace w' = trace w ++ [GetDoc uid].
Proof.
  intros Hdb Hf Hd Hsame. apply isToday_true_iff in Hsame.
  eexists _, _. rewrite updateStreak_run, Hdb, Hf, Hd. cbn zeta.
  rewrite Hsame. repeat split.
Qed.

(** X3: once a check-in has been written, a further attempt on the
    calendar date of that write changes nothing: at most one check-in per
    day. *)
Lemma updateStreak_once_per_day now stamp uid w r w' now' stamp' :
  updateStreak tz now stamp uid w = (Normal r, w') ->
  prop r "success" = VBool true ->
  prop r "message" = VStr "Streak updated successfully" ->
  dbReady w' = true ->
  next_fault w' = None ->
  localDate tz (toDate stamp) = localDate tz now' ->
  exists w'',
    updateStreak tz now' stamp' uid w' =
      (Normal [("success", VBool true);
               ("streakDays", prop r "streakDays");
               ("message", VStr "Already checked in today")], w'') /\
    firestore w'' = firestore w'.
Proof.
  intros Hrun Hs Hm Hdb Hf Hsame. apply isToday_true_iff in Hsame.
  destruct (updateStreak_success _ _ _ _ _ _ Hrun Hs) as (d & Hd & Hcase).
  destruct Hcase as [(_ & -> & _) | (_ & -> & Hu & _)];
    [cbn in Hm; congruence|].
  eexists. rewrite updateStreak_run, Hdb, Hf, Hu, lookup_insert_eq. cbn zeta.
  unfold lastCheckInDate at 1.
  cbn [lastCheckIn apply_patch checkin_patch patch_lastCheckIn].
  rewrite Hsame. split; reflexivity.
Qed.

(** C2: when the last check-in is exactly one calendar day before [now],
    in the same month of the same year, a successful [updateStreak]
    returns the stored streak plus one, and stores it together with the
    new [lastCheckIn].  The stored streak is a safe integer, so that the
    [+ 1] of the code is exact. *)
Theorem updateStreak_next_day now stamp uid w d r w' :
  users (firestore w) !! uid = Some d ->
  isSafeInteger (streakDays_or_0 d) = true ->
  localDay tz (lastCheckInDate d) + 1 = localDay tz now ->
  getMonth tz (lastCheckInDate d) = getMonth tz now ->
  getFullYear tz (lastCheckInDate d) = getFullYear tz now ->
  updateStreak tz now stamp uid w = (Normal r, w') ->
  prop r "success" = VBool true ->
  prop r "streakDays" = VNum (streakDays_or_0 d + 1) /\
  exists d',
    users (firestore w') !! uid = Some d' /\
    streakDays d' = Some (streakDays_or_0 d + 1) /\
    lastCheckIn d' = Some stamp.
Proof.
  intros Hd Hsafe Hday Hm Hy Hrun Hs.
  destruct (updateStreak_success _ _ _ _ _ _ Hrun Hs) as (d0 & Hd0 & Hcase).
  rewrite Hd in Hd0. injection Hd0 as <-.
  assert (Hyes : isYesterday tz (lastCheckInDate d) now = true)
    by (apply isYesterday_true_iff; auto).
  destruct Hcase as [(Ht & _) | (_ & -> & Hu & _)].
  - rewrite (day_before_not_today tz _ _ Hday) in Ht. discriminate Ht.
  - unfold checkin_patch, next_streak in *. rewrite Hyes in *.
    split; [reflexivity|]. rewrite Hu, lookup_insert_eq.
    eexists. split; [reflexivity|]. split; reflexivity.
Qed.

(** C3 (amended): when the last check-in, an absent one counting as the
    instant 0, is two or more calendar days before [now], a successful
    [updateStreak] returns 1 and stores it together with the new
    [lastCheckIn]. *)
Theorem updateStreak_after_gap now stamp uid w d r w' :
  users (firestore w) !! uid = Some d ->
  localDay tz (lastCheckInDate d) + 2 <= localDay tz now ->
  updateStreak tz now stamp uid w = (Normal r, w') ->
  prop r "success" = VBool true ->
  prop r "streakDays" = VNum 1 /\
  exists d',
    users (firestore w') !! uid = Some d' /\
    streakDays d' = Some 1 /\
    lastCheckIn d' = Some stamp.
Proof.
  intros Hd Hgap Hrun Hs.
  destruct (updateStreak_success _ _ _ _ _ _ Hrun Hs) as (d0 & Hd0 & Hcase).
  rewrite Hd in Hd0. injection Hd0 as <-.
  destruct Hcase as [(Ht & _) | (_ & -> & Hu & _)].
  - rewrite (gap_not_today tz _ _ Hgap) in Ht. discriminate Ht.
  - unfold checkin_patch, next_streak in *.
    rewrite (gap_not_yesterday tz _ _ Hgap) in *.
    split; [reflexivity|]. rewrite Hu, lookup_insert_eq.
    eexists. split; [reflexivity|]. split; reflexivity.
Qed.

(** C4: [isYesterday] compares the day of the month of the last check-in
    with that of [now] minus one and requires equal month and year; so
    when the last check-in is one calendar day before [now] but in
    another month, it is false, and a successful [updateStreak] returns 1
    and stores it, whatever the streak was. *)
Theorem updateStreak_month_boundary now stamp uid w d r w' :
  users (firestore w) !! uid = Some d ->
  localDay tz (lastCheckInDate d) + 1 = localDay tz now ->
  getMonth tz (lastCheckInDate d) <> getMonth tz now ->
  updateStreak tz now stamp uid w = (Normal r, w') ->
  prop r "success" = VBool true ->
  isYesterday tz (lastCheckInDate d) now =
    ((getDate tz (lastCheckInDate d) =? getDate tz now - 1) &&
     (getMonth tz (lastCheckInDate d) =? getMonth tz now) &&
     (getFullYear tz (lastCheckInDate d) =? getFullYear tz now)) /\
  isYesterday tz (lastCheckInDate d) now = false /\
  prop r "streakDays" = VNum 1 /\
  exists d',
    users (firestore w') !! uid = Some d' /\
    streakDays d' = Some 1 /\
    lastCheckIn d' = Some stamp.
Proof.
  intros Hd Hday Hm Hrun Hs.
  destruct (updateStreak_success _ _ _ _ _ _ Hrun Hs) as (d0 & Hd0 & Hcase).
  rewrite Hd in Hd0. injection Hd0 as <-.
  pose proof (other_month_not_yesterday tz _ _ Hm) as Hno.
  split; [reflexivity|]. split; [exact Hno|].
  destruct Hcase as [(Ht & _) | (_ & -> & Hu & _)].
  - rewrite (day_before_not_today tz _ _ Hday) in Ht. discriminate Ht.
  - unfold checkin_patch, next_streak in *. rewrite Hno in *.
    split; [reflexivity|]. rewrite Hu, lookup_insert_eq.
    eexists. split; [reflexivity|]. split; reflexivity.
Qed.

End CheckIn.

(** ** Failures of [updateStreak] *)

Section CheckInFailures.
Context {Coord : Type}.
Variable tz : Z -> Z.
Implicit Types (w : World Coord) (d : UserDoc Coord) (r : JsObject).

(** Whatever happens, [updateStreak] returns an object; it never throws. *)
Lemma updateStreak_returns now stamp uid w :
  exists r w', updateStreak tz now stamp uid w = (Normal r, w').
Proof.
  rewrite updateStreak_run. cbn zeta.
  repeat match goal with
         | |- context [match ?x with _ => _ end] => destruct x
         end; eauto.
Qed.

(** A check-in that does not report success has left the store alone. *)
Lemma updateStreak_failure_keeps_store now stamp uid w r w' :
  updateStreak tz now stamp uid w = (Normal r, w') ->
  prop r "success" = VBool false ->
  firestore w' = firestore w.
Proof.
  rewrite updateStreak_run. cbn zeta. intros Hrun Hs.
  repeat match type of Hrun with
         | context [match ?x with _ => _ end] => destruct x
         end; injection Hrun as <- <-; try reflexivity.
  cbn in Hs. discriminate Hs.
Qed.

(** C6: for a plain document id, when the backend fails the read, or
    answers the read and fails the write of a check-in that is due, with
    the error message [message], [updateStreak] returns
    [{success: false, message}], the store is as it was before, and the
    failed call was issued once and is the last call issued. *)
Theorem updateStreak_persistence_failure now stamp uid w message rest :
  valid_id uid = true ->
  dbReady w = true ->
  faults w = Some message :: rest \/
  (faults w = None :: Some message :: rest /\
   exists d, users (firestore w) !! uid = Some d /\
             isToday tz (lastCheckInDate d) now = false) ->
  exists w' calls,
    updateStreak tz now stamp uid w =
      (Normal [("success", VBool false); ("message", VStr message)], w') /\
    firestore w' = firestore w /\
    faults w' = rest /\
    trace w' = trace w ++ calls /\
    (calls = [GetDoc uid] \/
     exists p, calls = [GetDoc uid; UpdateDoc uid p]).
Proof.
  intros _ Hdb [Hf | (Hf & d & Hd & Ht)].
  - exists (issued (GetDoc uid) w), [GetDoc uid].
    rewrite updateStreak_run, Hdb. unfold next_fault. rewrite Hf. cbn.
    rewrite Hf. auto 6.
  - exists (issued (UpdateDoc uid (checkin_patch tz d now stamp))
              (issued (GetDoc uid) w)),
      [GetDoc uid; UpdateDoc uid (checkin_patch tz d now stamp)].
    rewrite updateStreak_run, Hdb. unfold next_fault at 1. rewrite Hf, Hd, Ht.
    cbn zeta. unfold next_fault. cbn [faults issued]. rewrite Hf. cbn [tail].
    repeat split.
    + cbn. rewrite <- app_assoc. reflexivity.
    + right. eexists. reflexivity.
Qed.

(** C7: for a plain document id, when the read is answered and there is
    no document for the user id, [updateStreak] returns
    [{success: false, message: 'User not found'}]; the read is the only
    call issued and the store is as it was. *)
Theorem updateStreak_user_not_found now stamp uid w :
  valid_id uid = true ->
  dbReady w = true ->
  next_fault w = None ->
  users (firestore w) !! uid = None ->
  exists w',
    updateStreak tz now stamp uid w =
      (Normal [("success", VBool false); ("message", VStr "User not found")], w') /\
    firestore w' = firestore w /\
    trace w' = trace w ++ [GetDoc uid].
Proof.
  intros _ Hdb Hf Hd. eexists.
  rewrite updateStreak_run, Hdb, Hf, Hd. repeat split.
Qed.

End CheckInFailures.

(** ** Relapses *)

Section RelapseFacts.
Context {Coord : Type}.
Implicit Types (w : World Coord) (d : UserDoc Coord) (r : JsObject).

(** C5: a [logRelapse] that reports success has appended to [relapses]
    one record with the user id, the time of the call and the notes
    given, the empty string when there are none, and has set, on the
    user's document, [streakDays] to 0 and [lastCheckIn] to the time of
    the reset, leaving its other fields and all other documents alone. *)
Theorem logRelapse_resets recorded reset uid notes w r w' :
  logRelapse recorded reset uid notes w = (Normal r, w') ->
  prop r "success" = VBool true ->
  relapses (firestore w') =
    relapses (firestore w) ++
    [{| userId := uid; timestamp := recorded;
        notes := match notes with Some s => s | None => "" end |}] /\
  exists d d',
    users (firestore w) !! uid = Some d /\
    users (firestore w') = <[uid := d']> (users (firestore w)) /\
    streakDays d' = Some 0 /\
    lastCheckIn d' = Some reset /\
    (username d', email d', location d', role d', joinedAt d') =
    (username d, email d, location d, role d, joinedAt d).
Proof.
  rewrite logRelapse_run. cbn zeta. intros Hrun Hs.
  destruct (dbReady w); [|injection Hrun as <- <-; cbn in Hs; discriminate Hs].
  destruct (next_fault w); [injection Hrun as <- <-; cbn in Hs; discriminate Hs|].
  match type of Hrun with
  | context [next_fault ?x] =>
      destruct (next_fault x);
        [injection Hrun as <- <-; cbn in Hs; discriminate Hs|]
  end.
  destruct (users (firestore w) !! uid) as [d|] eqn:Hd;
    [|injection Hrun as <- <-; cbn in Hs; discriminate Hs].
  injection Hrun as <- <-. split; [reflexivity|].
  exists d, (apply_patch (relapse_patch reset) d). repeat split.
Qed.

End RelapseFacts.

(** ** The two streak fields travel together *)

Section StreakWrites.
Context {Coord : Type}.
Variable tz : Z -> Z.
Implicit Types (w : World Coord) (d : UserDoc Coord) (r : JsObject).

Ltac no_write calls :=
  exists calls; split;
  [cbn; rewrite <- ?app_assoc, ?app_nil_r; reflexivity|];
  split; [repeat (apply Forall_cons_2; [cbn; eauto|]); apply Forall_nil_2|];
  split; [cbn; lia|];
  intros ref; left; reflexivity.

Ltac one_write uid d p calls Hd :=
  exists calls; split;
  [cbn; rewrite <- ?app_assoc, ?app_nil_r; reflexivity|];
  split; [repeat (apply Forall_cons_2; [cbn; eauto|]); apply Forall_nil_2|];
  split; [cbn; lia|];
  intros ref; cbn [snd put_user set_firestore firestore users];
  destruct (decide (ref = uid)) as [->|Hne];
  [right; exists d, p; split; [cbn; auto|];
   split; [exact Hd | apply lookup_insert_eq]
  |left; apply lookup_insert_ne; congruence].

(** C8: in a check-in and in a relapse alike, each update of a user
    document carries both [streakDays] and [lastCheckIn], the latter set
    to the time of the write; there is at most one such update; and
    afterwards every user document is either as it was or the old one
    with exactly that update applied. *)
Theorem streak_fields_written_together (op : Operation) w :
  exists calls,
    trace (snd (run tz op w)) = trace w ++ calls /\
    Forall (writes_both (subject op) (write_time op)) calls /\
    (length (List.filter is_user_write calls) <= 1)%nat /\
    forall ref,
      users (firestore (snd (run tz op w))) !! ref = users (firestore w) !! ref \/
      exists d p,
        In (UpdateDoc ref p) calls /\
        users (firestore w) !! ref = Some d /\
        users (firestore (snd (run tz op w))) !! ref = Some (apply_patch p d).
Proof.
  destruct op as [now stamp uid | recorded reset uid notes];
    cbn [run subject write_time].
  - rewrite updateStreak_run. cbn zeta.
    destruct (dbReady w); [|no_write (@nil (Call Coord))].
    destruct (next_fault w); [no_write [GetDoc (Coord:=Coord) uid]|].
    destruct (users (firestore w) !! uid) as [d|] eqn:Hd;
      [|no_write [GetDoc (Coord:=Coord) uid]].
    destruct (isToday tz (lastCheckInDate d) now);
      [no_write [GetDoc (Coord:=Coord) uid]|].
    destruct (next_fault (issued (GetDoc uid) w)).
    + no_write [GetDoc (Coord:=Coord) uid;
                UpdateDoc uid (checkin_patch tz d now stamp)].
    + one_write uid d (checkin_patch tz d now stamp)
        [GetDoc (Coord:=Coord) uid;
         UpdateDoc uid (checkin_patch tz d now stamp)] Hd.
  - rewrite logRelapse_run. cbn zeta.
    destruct (dbReady w); [|no_write (@nil (Call Coord))].
    destruct (next_fault w);
      [no_write [AddRelapse (Coord:=Coord) (relapse_record recorded uid notes)]|].
    match goal with
    | |- context [next_fault ?x] => destruct (next_fault x)
    end.
    + no_write [AddRelapse (Coord:=Coord) (relapse_record recorded uid notes);
                UpdateDoc uid (relapse_patch reset)].
    + destruct (users (firestore w) !! uid) as [d|] eqn:Hd.
      * one_write uid d (relapse_patch reset)
          [AddRelapse (Coord:=Coord) (relapse_record recorded uid notes);
           UpdateDoc uid (relapse_patch reset)] Hd.
      * no_write [AddRelapse (Coord:=Coord) (relapse_record recorded uid notes);
                  UpdateDoc uid (relapse_patch reset)].
Qed.

End StreakWrites.

(** ** Reading a profile *)

Section ProfileRead.
Context {Coord : Type}.
Implicit Types (w : World Coord) (d : UserDoc Coord).

(** Whatever the store holds or the backend does, [getUserProfile]
    returns a profile carrying the id it was asked for, never [null]. *)
Lemma getUserProfile_never_null uid w :
  exists p w', getUserProfile uid w = (Normal (Some p), w') /\ id p = uid.
Proof.
  rewrite getUserProfile_run. cbn zeta.
  repeat match goal with
         | |- context [match ?x with _ => _ end] => destruct x
         end; eauto.
Qed.

(** C9 (amended): when the read is answered, [getUserProfile] returns
    the id with the stored fields if the document exists, and the id
    with no field at all if it does not; in neither case [null], and the
    store is as it was. *)
Theorem getUserProfile_read uid w :
  dbReady w = true ->
  next_fault w = None ->
  exists w',
    getUserProfile uid w =
      (Normal (Some {| id := uid;
                       data := match users (firestore w) !! uid with
                               | Some d => d
                               | None => empty_doc
                               end |}), w') /\
    firestore w' = firestore w.
Proof.
  intros Hdb Hf. eexists. rewrite getUserProfile_run, Hdb, Hf. cbn zeta.
  destruct (users (firestore w) !! uid); split; reflexivity.
Qed.

End ProfileRead.

(** ** Registration, then check-ins *)

Section Registration.
Context {Coord : Type}.
Variable GeoPoint_ok : Coord -> Coord -> bool.
Variable tz : Z -> Z.
Implicit Types (w : World Coord) (d : UserDoc Coord) (r : JsObject).

Lemma register_success uid joined checked mail password name location w w1 :
  register GeoPoint_ok uid joined checked mail password name location w =
    (Normal true, w1) ->
  dbReady w1 = true /\
  users (firestore w1) =
    <[uid := new_profile joined checked mail name location]> (users (firestore w)).
Proof.
  rewrite register_run. cbn zeta. intros Hrun.
  destruct (next_fault w); [discriminate Hrun|].
  destruct (dbReady w) eqn:Hdb; [|discriminate Hrun].
  cbn [andb] in Hrun.
  destruct (match location with Some _ => _ | None => _ end);
    [|discriminate Hrun].
  match type of Hrun with
  | context [next_fault ?x] => destruct (next_fault x); [discriminate Hrun|]
  end.
  injection Hrun as <-. split; [exact Hdb | reflexivity].
Qed.

(** C10: a successful [register] stores [streakDays] 0 and
    [lastCheckIn] the time of registration.  From there, a check-in on
    the calendar date of registration returns success with streak 0 and
    ['Already checked in today'] after the read alone, without touching
    the store; and a successful check-in on any other calendar date, the
    first one that writes, returns and stores streak 1. *)
Theorem register_then_check_in
    uid joined checked mail password name location w w1 :
  register GeoPoint_ok uid joined checked mail password name location w =
    (Normal true, w1) ->
  (exists d,
     users (firestore w1) !! uid = Some d /\
     streakDays d = Some 0 /\ lastCheckIn d = Some checked) /\
  (forall now stamp,
     next_fault w1 = None ->
     localDate tz now = localDate tz (toDate checked) ->
     exists w2,
       updateStreak tz now stamp uid w1 =
         (Normal [("success", VBool true);
                  ("streakDays", VNum 0);
                  ("message", VStr "Already checked in today")], w2) /\
       firestore w2 = firestore w1 /\
       trace w2 = trace w1 ++ [GetDoc uid]) /\
  (forall now stamp r w2,
     updateStreak tz now stamp uid w1 = (Normal r, w2) ->
     prop r "success" = VBool true ->
     localDate tz now <> localDate tz (toDate checked) ->
     prop r "streakDays" = VNum 1 /\
     exists d',
       users (firestore w2) !! uid = Some d' /\
       streakDays d' = Some 1 /\ lastCheckIn d' = Some stamp).
Proof.
  intros Hreg.
  destruct (register_success _ _ _ _ _ _ _ _ _ Hreg) as [Hdb Hu].
  assert (Hd : users (firestore w1) !! uid =
               Some (new_profile joined checked mail name location))
    by (rewrite Hu; apply lookup_insert_eq).
  split; [eexists; split; [exact Hd | split; reflexivity]|]. split.
  - intros now stamp Hf Hsame. eexists.
    rewrite updateStreak_run, Hdb, Hf, Hd. cbn zeta.
    assert (Ht : isToday tz (lastCheckInDate
                   (new_profile joined checked mail name location)) now = true)
      by (apply isToday_true_iff; symmetry; exact Hsame).
    rewrite Ht. repeat split.
  - intros now stamp r w2 Hrun Hs Hother.
    destruct (updateStreak_success _ _ _ _ _ _ _ Hrun Hs) as (d0 & Hd0 & Hcase).
    rewrite Hd in Hd0. injection Hd0 as <-.
    destruct Hcase as [(Ht & _) | (_ & -> & Hu2 & _)].
    + apply isToday_true_iff in Ht. exfalso. apply Hother. symmetry. exact Ht.
    + assert (Hn : next_streak tz (new_profile joined checked mail name location)
                     now = 1)
        by (unfold next_streak; destruct (isYesterday _ _ _); reflexivity).
      unfold checkin_patch in Hu2. rewrite Hn in *.
      split; [reflexivity|]. rewrite Hu2, lookup_insert_eq.
      eexists. split; [reflexivity|]. split; reflexivity.
Qed.

End Registration.

(** * Concrete runs *)

Section ConcreteRuns.
Import Examples.

Example scenario_next_day :
  fst (updateStreak UTC (at_utc 2024 3 11 8) (at_utc 2024 3 11 8) "u1" march10) =
  Normal [("success", VBool true); ("streakDays", VNum 6);
          ("message", VStr "Streak updated successfully")].
Proof. vm_compute. reflexivity. Qed.

Example scenario_same_day :
  fst (updateStreak UTC (at_utc 2024 3 10 18) (at_utc 2024 3 10 18) "u1" march10) =
  Normal [("success", VBool true); ("streakDays", VNum 5);
          ("message", VStr "Already checked in today")].
Proof. vm_compute. reflexivity. Qed.

Example scenario_gap :
  fst (updateStreak UTC (at_utc 2024 3 10 8) (at_utc 2024 3 10 8) "u1" march1) =
  Normal [("success", VBool true); ("streakDays", VNum 1);
          ("message", VStr "Streak updated successfully")].
Proof. vm_compute. reflexivity. Qed.

Example scenario_month_boundary :
  fst (updateStreak UTC (at_utc 2024 2 1 7) (at_utc 2024 2 1 7) "u1" january31) =
  Normal [("success", VBool true); ("streakDays", VNum 1);
          ("message", VStr "Streak updated successfully")].
Proof. vm_compute. reflexivity. Qed.

(** On 2024-03-10 at 18:00, with a check-in that morning. *)
Lemma updateStreak_same_day_witness :
  localDate UTC (at_utc 2024 3 10 9) = localDate UTC (at_utc 2024 3 10 18) /\
  exists r w',
    updateStreak UTC (at_utc 2024 3 10 18) (at_utc 2024 3 10 18) "u1" march10 =
      (Normal r, w') /\
    r = [("success", VBool true); ("streakDays", VNum 5);
         ("message", VStr "Already checked in today")] /\
    prop r "changed" = VUndefined /\
    firestore w' = firestore march10 /\
    trace w' = [GetDoc "u1"].
Proof.
  split; [vm_compute; reflexivity|].
  apply (updateStreak_same_day UTC (at_utc 2024 3 10 18) (at_utc 2024 3 10 18)
           "u1" march10 (profile (Some 5) (Some (at_utc 2024 3 10 9))));
    vm_compute; reflexivity.
Defined.

(** C1, as stated, fails on the same input: the object returned has no
    [changed] property, so reading it gives [undefined], not [false]. *)
Lemma updateStreak_same_day_changed_missing :
  localDate UTC (at_utc 2024 3 10 9) = localDate UTC (at_utc 2024 3 10 18) /\
  exists r w',
    updateStreak UTC (at_utc 2024 3 10 18) (at_utc 2024 3 10 18) "u1" march10 =
      (Normal r, w') /\
    has_prop r "changed" = false /\
    prop r "changed" <> VBool false.
Proof.
  split; [vm_compute; reflexivity|].
  eexists _, _. split; [vm_compute; reflexivity|].
  split; [reflexivity|]. cbn. discriminate.
Qed.

(** From 2024-03-10 to 2024-03-11: streak 5 becomes 6. *)
Lemma updateStreak_next_day_witness :
  isSafeInteger 5 = true /\
  localDay UTC (at_utc 2024 3 10 9) + 1 = localDay UTC (at_utc 2024 3 11 8) /\
  prop (streak_updated 6) "streakDays" = VNum (5 + 1) /\
  exists d',
    users (firestore (snd (updateStreak UTC (at_utc 2024 3 11 8)
                             (at_utc 2024 3 11 8) "u1" march10))) !! "u1" = Some d' /\
    streakDays d' = Some (5 + 1) /\
    lastCheckIn d' = Some (at_utc 2024 3 11 8).
Proof.
  split; [reflexivity|]. split; [vm_compute; reflexivity|].
  apply (updateStreak_next_day UTC (at_utc 2024 3 11 8) (at_utc 2024 3 11 8)
           "u1" march10 (profile (Some 5) (Some (at_utc 2024 3 10 9)))
           (streak_updated 6)
           (snd (updateStreak UTC (at_utc 2024 3 11 8) (at_utc 2024 3 11 8)
                   "u1" march10)));
    vm_compute; reflexivity.
Defined.

(** From 2024-03-01 to 2024-03-10, and from no check-in at all to
    2024-03-10: the streak restarts at 1. *)
Lemma updateStreak_after_gap_witness :
  (localDay UTC (at_utc 2024 3 1 9) + 2 <= localDay UTC (at_utc 2024 3 10 8) /\
   prop (streak_updated 1) "streakDays" = VNum 1 /\
   exists d',
     users (firestore (snd (updateStreak UTC (at_utc 2024 3 10 8)
                              (at_utc 2024 3 10 8) "u1" march1))) !! "u1" = Some d' /\
     streakDays d' = Some 1 /\
     lastCheckIn d' = Some (at_utc 2024 3 10 8)) /\
  (localDay UTC 0 + 2 <= localDay UTC (at_utc 2024 3 10 8) /\
   prop (streak_updated 1) "streakDays" = VNum 1 /\
   exists d',
     users (firestore (snd (updateStreak UTC (at_utc 2024 3 10 8)
                              (at_utc 2024 3 10 8) "u1" never_checked_in))) !! "u1"
       = Some d' /\
     streakDays d' = Some 1 /\
     lastCheckIn d' = Some (at_utc 2024 3 10 8)).
Proof.
  split; (split; [vm_compute; discriminate|]).
  - apply (updateStreak_after_gap UTC (at_utc 2024 3 10 8) (at_utc 2024 3 10 8)
             "u1" march1 (profile (Some 5) (Some (at_utc 2024 3 1 9)))
             (streak_updated 1)
             (snd (updateStreak UTC (at_utc 2024 3 10 8) (at_utc 2024 3 10 8)
                     "u1" march1)));
      vm_compute; first [reflexivity | discriminate].
  - apply (updateStreak_after_gap UTC (at_utc 2024 3 10 8) (at_utc 2024 3 10 8)
             "u1" never_checked_in (profile (Some 4) None)
             (streak_updated 1)
             (snd (updateStreak UTC (at_utc 2024 3 10 8) (at_utc 2024 3 10 8)
                     "u1" never_checked_in)));
      vm_compute; first [reflexivity | discriminate].
Defined.

(** C3, as stated, fails for a profile without [lastCheckIn] when the
    clock of the host reads 1970-01-02: the day after the instant 0
    counts as a consecutive day, and the streak 4 becomes 5. *)
Lemma updateStreak_absent_not_always_1 :
  lastCheckIn (profile (Some 4) None) = None /\
  users (firestore never_checked_in) !! "u1" = Some (profile (Some 4) None) /\
  exists r w',
    updateStreak UTC (at_utc 1970 1 2 10) (at_utc 1970 1 2 10) "u1"
      never_checked_in = (Normal r, w') /\
    prop r "success" = VBool true /\
    prop r "streakDays" = VNum 5 /\
    prop r "streakDays" <> VNum 1.
Proof.
  split; [reflexivity|]. split; [vm_compute; reflexivity|].
  eexists _, _. split; [vm_compute; reflexivity|].
  split; [reflexivity|]. split; [reflexivity|]. cbn. discriminate.
Qed.

(** From 2024-01-31 to 2024-02-01: streak 7 falls back to 1. *)
Lemma updateStreak_month_boundary_witness :
  localDay UTC (at_utc 2024 1 31 21) + 1 = localDay UTC (at_utc 2024 2 1 7) /\
  isYesterday UTC (at_utc 2024 1 31 21) (at_utc 2024 2 1 7) = false /\
  prop (streak_updated 1) "streakDays" = VNum 1 /\
  exists d',
    users (firestore (snd (updateStreak UTC (at_utc 2024 2 1 7)
                             (at_utc 2024 2 1 7) "u1" january31))) !! "u1" = Some d' /\
    streakDays d' = Some 1 /\
    lastCheckIn d' = Some (at_utc 2024 2 1 7).
Proof.
  split; [vm_compute; reflexivity|].
  apply (updateStreak_month_boundary UTC (at_utc 2024 2 1 7) (at_utc 2024 2 1 7)
           "u1" january31 (profile (Some 7) (Some (at_utc 2024 1 31 21)))
           (streak_updated 1)
           (snd (updateStreak UTC (at_utc 2024 2 1 7) (at_utc 2024 2 1 7)
                   "u1" january31)));
    vm_compute; first [reflexivity | discriminate].
Defined.

(** A relapse logged without notes on 2024-03-12 at 22:00. *)
Lemma logRelapse_resets_witness :
  fst (logRelapse (at_utc 2024 3 12 22) (at_utc 2024 3 12 22) "u1" None march10) =
    Normal relapse_logged /\
  relapses (firestore (snd (logRelapse (at_utc 2024 3 12 22) (at_utc 2024 3 12 22)
                              "u1" None march10))) =
    [] ++ [{| userId := "u1"; timestamp := at_utc 2024 3 12 22; notes := "" |}] /\
  exists d d',
    users (firestore march10) !! "u1" = Some d /\
    users (firestore (snd (logRelapse (at_utc 2024 3 12 22) (at_utc 2024 3 12 22)
                             "u1" None march10))) =
      <["u1" := d']> (users (firestore march10)) /\
    streakDays d' = Some 0 /\
    lastCheckIn d' = Some (at_utc 2024 3 12 22) /\
    (username d', email d', location d', role d', joinedAt d') =
    (username d, email d, location d, role d, joinedAt d).
Proof.
  split; [vm_compute; reflexivity|].
  apply (logRelapse_resets (at_utc 2024 3 12 22) (at_utc 2024 3 12 22) "u1" None
           march10 relapse_logged
           (snd (logRelapse (at_utc 2024 3 12 22) (at_utc 2024 3 12 22)
                   "u1" None march10)));
    vm_compute; reflexivity.
Defined.

(** The client is offline at the read; the write is refused. *)
Lemma updateStreak_persistence_failure_witness :
  (exists w' calls,
     updateStreak UTC (at_utc 2024 3 11 8) (at_utc 2024 3 11 8) "u1" read_down =
       (Normal [("success", VBool false);
                ("message",
                 VStr "Failed to get document because the client is offline.")],
        w') /\
     firestore w' = firestore read_down /\
     faults w' = [] /\
     trace w' = [] ++ calls /\
     (calls = [GetDoc "u1"] \/ exists p, calls = [GetDoc "u1"; UpdateDoc "u1" p])) /\
  (exists w' calls,
     updateStreak UTC (at_utc 2024 3 11 8) (at_utc 2024 3 11 8) "u1" write_rejected =
       (Normal [("success", VBool false);
                ("message", VStr "Missing or insufficient permissions.")],
        w') /\
     firestore w' = firestore write_rejected /\
     faults w' = [] /\
     trace w' = [] ++ calls /\
     (calls = [GetDoc "u1"] \/ exists p, calls = [GetDoc "u1"; UpdateDoc "u1" p])).
Proof.
  split.
  - apply (updateStreak_persistence_failure UTC (at_utc 2024 3 11 8)
             (at_utc 2024 3 11 8) "u1" read_down
             "Failed to get document because the client is offline." []);
      [reflexivity | reflexivity | left; reflexivity].
  - apply (updateStreak_persistence_failure UTC (at_utc 2024 3 11 8)
             (at_utc 2024 3 11 8) "u1" write_rejected
             "Missing or insufficient permissions." []);
      [reflexivity | reflexivity | right; split; [reflexivity|]].
    exists (profile (Some 5) (Some (at_utc 2024 3 10 9))).
    split; vm_compute; reflexivity.
Defined.

(** A check-in for an id without a document. *)
Lemma updateStreak_user_not_found_witness :
  valid_id "nobody" = true /\
  users (firestore march10) !! "nobody" = None /\
  exists w',
    updateStreak UTC (at_utc 2024 3 11 8) (at_utc 2024 3 11 8) "nobody" march10 =
      (Normal [("success", VBool false); ("message", VStr "User not found")], w') /\
    firestore w' = firestore march10 /\
    trace w' = [] ++ [GetDoc "nobody"].
Proof.
  split; [reflexivity|]. split; [vm_compute; reflexivity|].
  apply (updateStreak_user_not_found UTC (at_utc 2024 3 11 8) (at_utc 2024 3 11 8)
           "nobody" march10);
    vm_compute; reflexivity.
Defined.

(** Reading a stored profile, and reading an id without a document. *)
Lemma getUserProfile_read_witness :
  (exists w',
     getUserProfile "u1" march10 =
       (Normal (Some {| id := "u1";
                        data := profile (Some 5) (Some (at_utc 2024 3 10 9)) |}),
        w') /\
     firestore w' = firestore march10) /\
  (exists w',
     getUserProfile "nobody" march10 =
       (Normal (Some {| id := "nobody"; data := empty_doc |}), w') /\
     firestore w' = firestore march10).
Proof.
  split.
  - apply (getUserProfile_read "u1" march10); reflexivity.
  - apply (getUserProfile_read "nobody" march10); reflexivity.
Defined.

(** C9, as stated, fails: for an id without a document the read returns
    a profile, the very one it returns for a stored document that has no
    fields, and not [null]; nothing in the result tells the two apart. *)
Lemma getUserProfile_not_found_is_a_profile :
  users (firestore no_users) !! "ghost" = None /\
  users (firestore bare_user) !! "ghost" = Some empty_doc /\
  fst (getUserProfile "ghost" no_users) =
    Normal (Some {| id := "ghost"; data := empty_doc |}) /\
  fst (getUserProfile "ghost" no_users) = fst (getUserProfile "ghost" bare_user) /\
  fst (getUserProfile "ghost" no_users) <> Normal None.
Proof.
  split; [vm_compute; reflexivity|]. split; [vm_compute; reflexivity|].
  split; [vm_compute; reflexivity|]. split; [vm_compute; reflexivity|].
  vm_compute. discriminate.
Qed.

(** "u9" registers on 2024-05-20 at 14:00, tries to check in that
    evening, and checks in the next morning. *)
Lemma register_then_check_in_witness :
  (exists d,
     users (firestore just_registered) !! "u9" = Some d /\
     streakDays d = Some 0 /\ lastCheckIn d = Some (at_utc 2024 5 20 14)) /\
  (exists w2,
     updateStreak UTC (at_utc 2024 5 20 23) (at_utc 2024 5 20 23) "u9"
       just_registered =
       (Normal [("success", VBool true); ("streakDays", VNum 0);
                ("message", VStr "Already checked in today")], w2) /\
     firestore w2 = firestore just_registered /\
     trace w2 = trace just_registered ++ [GetDoc "u9"]) /\
  (prop (streak_updated 1) "streakDays" = VNum 1 /\
   exists d',
     users (firestore (snd (updateStreak UTC (at_utc 2024 5 21 7)
                              (at_utc 2024 5 21 7) "u9" just_registered))) !! "u9"
       = Some d' /\
     streakDays d' = Some 1 /\ lastCheckIn d' = Some (at_utc 2024 5 21 7)).
Proof.
  destruct (register_then_check_in any_coordinates UTC "u9" (at_utc 2024 5 20 14)
              (at_utc 2024 5 20 14) "ann@example.org" "secret" "ann" None
              no_users just_registered)
    as (Hstored & Hsame & Hnext);
    [vm_compute; reflexivity|].
  split; [exact Hstored|]. split.
  - apply Hsame; vm_compute; reflexivity.
  - apply (Hnext (at_utc 2024 5 21 7) (at_utc 2024 5 21 7) (streak_updated 1));
      [vm_compute; reflexivity | reflexivity | vm_compute; discriminate].
Defined.

End ConcreteRuns.

(** * Further properties *)

(** ** More of the calendar *)

Module CalendarBounds.
Import Calendar.

(** The day of the month of a calendar date lies between 1 and 31. *)
Lemma date_range z : 1 <= date (civil_from_days z) <= 31.
Proof.
  unfold civil_from_days, month_start. cbn zeta. cbn [date].
  set (doy := (z + 719468) mod 146097 - _).
  clearbody doy.
  Z.div_mod_to_equations. lia.
Qed.

End CalendarBounds.

(** ** More about check-ins *)

Section CheckInMore.
Context {Coord : Type}.
Variable tz : Z -> Z.
Implicit Types (w : World Coord) (d : UserDoc Coord) (r : JsObject).

Lemma getDate_range t : 1 <= getDate tz t <= 31.
Proof. apply CalendarBounds.date_range. Qed.

(** X1: whatever its outcome, [updateStreak] leaves the [relapses]
    collection alone, creates and deletes no user document, leaves every
    document but the user's own as it was, and in the user's own document
    keeps [username], [email], [location], [role] and [joinedAt]. *)
Theorem updateStreak_frame now stamp uid w :
  relapses (firestore (snd (updateStreak tz now stamp uid w))) =
    relapses (firestore w) /\
  dom (users (firestore (snd (updateStreak tz now stamp uid w)))) =
    dom (users (firestore w)) /\
  forall ref d',
    users (firestore (snd (updateStreak tz now stamp uid w))) !! ref = Some d' ->
    exists d,
      users (firestore w) !! ref = Some d /\
      (username d', email d', location d', role d', joinedAt d') =
      (username d, email d, location d, role d, joinedAt d) /\
      (ref <> uid -> d' = d).
Proof.
  rewrite updateStreak_run. cbn zeta.
  assert (Hsame : forall w1 : World Coord,
    firestore w1 = firestore w ->
    relapses (firestore w1) = relapses (firestore w) /\
    dom (users (firestore w1)) = dom (users (firestore w)) /\
    forall ref d',
      users (firestore w1) !! ref = Some d' ->
      exists d,
        users (firestore w) !! ref = Some d /\
        (username d', email d', location d', role d', joinedAt d') =
        (username d, email d, location d, role d, joinedAt d) /\
        (ref <> uid -> d' = d)).
  { intros w1 ->. repeat split. intros ref d' H. exists d'. auto. }
  destruct (dbReady w); [|apply Hsame; reflexivity].
  destruct (next_fault w); [apply Hsame; reflexivity|].
  destruct (users (firestore w) !! uid) as [d|] eqn:Hd;
    [|apply Hsame; reflexivity].
  destruct (isToday tz (lastCheckInDate d) now); [apply Hsame; reflexivity|].
  destruct (next_fault (issued (GetDoc uid) w)); [apply Hsame; reflexivity|].
  cbn [snd put_user set_firestore firestore users relapses issued].
  split; [reflexivity|]. split.
  - apply dom_insert_lookup_L. eauto.
  - intros ref d' H. destruct (decide (ref = uid)) as [->|Hne].
    + rewrite lookup_insert_eq in H. injection H as <-.
      exists d. split; [exact Hd|]. split; [reflexivity|]. congruence.
    + rewrite lookup_insert_ne in H by congruence. exists d'. auto.
Qed.

(** X2: [updateStreak] never throws: it returns an object whose
    [success] is a boolean and whose [message] is a string, and the
    object has a [streakDays] property exactly when [success] is true. *)
Theorem updateStreak_result_shape now stamp uid w :
  exists r w' (b : bool) (message : string),
    updateStreak tz now stamp uid w = (Normal r, w') /\
    prop r "success" = VBool b /\
    prop r "message" = VStr message /\
    has_prop r "streakDays" = b.
Proof.
  rewrite updateStreak_run. cbn zeta.
  repeat match goal with
         | |- context [match ?x with _ => _ end] => destruct x
         end;
    eexists _, _, _, _; (split; [reflexivity|]); repeat split.
Qed.

(** X4: check-ins on consecutive days add up: after a check-in that was
    written at [stamp1], a successful check-in one calendar day after
    [stamp1], in the same month and year, returns the streak of the first
    plus one.  The streak stored at the start and its successor are safe
    integers, so that both additions of the code are exact. *)
Theorem updateStreak_consecutive_days
    now1 stamp1 now2 stamp2 uid w d r1 w1 r2 w2 :
  users (firestore w) !! uid = Some d ->
  isSafeInteger (streakDays_or_0 d) = true ->
  isSafeInteger (streakDays_or_0 d + 1) = true ->
  updateStreak tz now1 stamp1 uid w = (Normal r1, w1) ->
  prop r1 "success" = VBool true ->
  prop r1 "message" = VStr "Streak updated successfully" ->
  localDay tz (toDate stamp1) + 1 = localDay tz now2 ->
  getMonth tz (toDate stamp1) = getMonth tz now2 ->
  getFullYear tz (toDate stamp1) = getFullYear tz now2 ->
  updateStreak tz now2 stamp2 uid w1 = (Normal r2, w2) ->
  prop r2 "success" = VBool true ->
  exists n,
    prop r1 "streakDays" = VNum n /\
    prop r2 "streakDays" = VNum (n + 1) /\
    prop r2 "message" = VStr "Streak updated successfully".
Proof.
  intros Hd0 _ _ Hrun1 Hs1 Hm1 Hday Hmon Hyear Hrun2 Hs2.
  destruct (updateStreak_success _ _ _ _ _ _ _ Hrun1 Hs1) as (d' & Hd & Hcase1).
  rewrite Hd0 in Hd. injection Hd as <-.
  destruct Hcase1 as [(_ & -> & _) | (_ & -> & Hu & _)];
    [cbn in Hm1; congruence|].
  destruct (updateStreak_success _ _ _ _ _ _ _ Hrun2 Hs2) as (d1 & Hd1 & Hcase2).
  rewrite Hu, lookup_insert_eq in Hd1. injection Hd1 as <-.
  set (d1 := apply_patch (checkin_patch tz d now1 stamp1) d) in *.
  assert (Hlast : lastCheckInDate d1 = toDate stamp1) by reflexivity.
  assert (Hold : streakDays_or_0 d1 = next_streak tz d now1) by reflexivity.
  exists (next_streak tz d now1). split; [reflexivity|].
  destruct Hcase2 as [(Ht & _) | (_ & -> & _)].
  - rewrite Hlast, (day_before_not_today tz _ _ Hday) in Ht. discriminate Ht.
  - unfold next_streak at 1. rewrite Hlast, Hold.
    assert (Hyes : isYesterday tz (toDate stamp1) now2 = true)
      by (apply isYesterday_true_iff; auto).
    rewrite Hyes. split; reflexivity.
Qed.

(** X5: a check-in on the first day of a month that is not a repeat of
    the same day always restarts the streak at 1, whatever the streak and
    the last check-in were. *)
Theorem updateStreak_first_of_month now stamp uid w d r w' :
  users (firestore w) !! uid = Some d ->
  getDate tz now = 1 ->
  localDate tz (lastCheckInDate d) <> localDate tz now ->
  updateStreak tz now stamp uid w = (Normal r, w') ->
  prop r "success" = VBool true ->
  prop r "streakDays" = VNum 1 /\
  exists d',
    users (firestore w') !! uid = Some d' /\ streakDays d' = Some 1.
Proof.
  intros Hd Hfirst Hother Hrun Hs.
  destruct (updateStreak_success _ _ _ _ _ _ _ Hrun Hs) as (d0 & Hd0 & Hcase).
  rewrite Hd in Hd0. injection Hd0 as <-.
  assert (Hno : isYesterday tz (lastCheckInDate d) now = false).
  { unfold isYesterday. rewrite Hfirst.
    pose proof (getDate_range (lastCheckInDate d)).
    destruct (getDate tz (lastCheckInDate d) =? 1 - 1) eqn:E; [|reflexivity].
    apply Z.eqb_eq in E. lia. }
  destruct Hcase as [(Ht & _) | (_ & -> & Hu & _)].
  - apply isToday_true_iff in Ht. contradiction.
  - unfold checkin_patch, next_streak in *. rewrite Hno in *.
    split; [reflexivity|]. rewrite Hu, lookup_insert_eq.
    eexists. split; reflexivity.
Qed.

(** X6: when the stored [lastCheckIn] lies on a later calendar day than
    [now] (a clock set back, a change of time zone), a successful check-in
    restarts the streak at 1 and moves [lastCheckIn] back to the time of
    the write. *)
Theorem updateStreak_last_in_future now stamp uid w d r w' :
  users (firestore w) !! uid = Some d ->
  localDay tz now < localDay tz (lastCheckInDate d) ->
  updateStreak tz now stamp uid w = (Normal r, w') ->
  prop r "success" = VBool true ->
  prop r "streakDays" = VNum 1 /\
  exists d',
    users (firestore w') !! uid = Some d' /\
    streakDays d' = Some 1 /\ lastCheckIn d' = Some stamp.
Proof.
  intros Hd Hlater Hrun Hs.
  destruct (updateStreak_success _ _ _ _ _ _ _ Hrun Hs) as (d0 & Hd0 & Hcase).
  rewrite Hd in Hd0. injection Hd0 as <-.
  assert (Hno : isYesterday tz (lastCheckInDate d) now = false).
  { destruct (isYesterday tz (lastCheckInDate d) now) eqn:E; [|reflexivity].
    apply isYesterday_true_iff in E. lia. }
  destruct Hcase as [(Ht & _) | (_ & -> & Hu & _)].
  - apply isToday_localDay in Ht. lia.
  - unfold checkin_patch, next_streak in *. rewrite Hno in *.
    split; [reflexivity|]. rewrite Hu, lookup_insert_eq.
    eexists. split; [reflexivity|]. split; reflexivity.
Qed.

End CheckInMore.

(** ** More about relapses *)

Section RelapseMore.
Context {Coord : Type}.
Variable tz : Z -> Z.
Implicit Types (w : World Coord) (d : UserDoc Coord) (r : JsObject).

(** X7: the two writes of [logRelapse] are not one: for a plain document
    id, when the record has been written and the update of the profile
    then fails, because the backend rejects it or because the user has no
    document, [logRelapse] reports the failure, the record stays in
    [relapses], and no streak is reset. *)
Theorem logRelapse_record_without_reset recorded reset uid notes w :
  valid_id uid = true ->
  dbReady w = true ->
  next_fault w = None ->
  (exists message rest, tail (faults w) = Some message :: rest) \/
  users (firestore w) !! uid = None ->
  exists w',
    logRelapse recorded reset uid notes w =
      (Normal [("success", VBool false);
               ("message",
                VStr match tail (faults w) with
                     | Some message :: _ => message
                     | _ => no_document_message uid
                     end)], w') /\
    relapses (firestore w') =
      relapses (firestore w) ++
      [{| userId := uid; timestamp := recorded;
          notes := match notes with Some s => s | None => "" end |}] /\
    users (firestore w') = users (firestore w).
Proof.
  intros _ Hdb Hf Hfail. eexists. rewrite logRelapse_run, Hdb, Hf. cbn zeta.
  unfold next_fault at 1. cbn [faults put_relapse set_firestore issued snd].
  destruct Hfail as [(message & rest & Ht) | Hd].
  - rewrite Ht. repeat split.
  - destruct (tail (faults w)) as [|[message|] rest]; rewrite ?Hd; repeat split.
Qed.

(** X8: a [logRelapse] that does not report success has changed no user
    document; of the store it has at most added its record to
    [relapses]. *)
Theorem logRelapse_failure_keeps_profiles recorded reset uid notes w r w' :
  logRelapse recorded reset uid notes w = (Normal r, w') ->
  prop r "success" = VBool false ->
  users (firestore w') = users (firestore w) /\
  (relapses (firestore w') = relapses (firestore w) \/
   relapses (firestore w') =
     relapses (firestore w) ++
     [{| userId := uid; timestamp := recorded;
         notes := match notes with Some s => s | None => "" end |}]).
Proof.
  rewrite logRelapse_run. cbn zeta. intros Hrun Hs.
  repeat match type of Hrun with
         | context [match ?x with _ => _ end] => destruct x
         end; injection Hrun as <- <-;
    try (cbn in Hs; discriminate Hs); split; auto.
Qed.

(** X9: after a relapse has been logged, a check-in on the calendar date
    of the reset is refused as already done, with streak 0 and without a
    write; a successful check-in on any other date returns 1. *)
Theorem logRelapse_then_check_in recorded reset uid notes w r w1 :
  logRelapse recorded reset uid notes w = (Normal r, w1) ->
  prop r "success" = VBool true ->
  (forall now stamp,
     next_fault w1 = None ->
     localDate tz now = localDate tz (toDate reset) ->
     exists w2,
       updateStreak tz now stamp uid w1 =
         (Normal [("success", VBool true);
                  ("streakDays", VNum 0);
                  ("message", VStr "Already checked in today")], w2) /\
       firestore w2 = firestore w1) /\
  (forall now stamp r2 w2,
     updateStreak tz now stamp uid w1 = (Normal r2, w2) ->
     prop r2 "success" = VBool true ->
     localDate tz now <> localDate tz (toDate reset) ->
     prop r2 "streakDays" = VNum 1).
Proof.
  intros Hrun Hs.
  assert (H1 : dbReady w1 = true /\
               exists d, users (firestore w1) !! uid =
                         Some (apply_patch (relapse_patch reset) d)).
  { rewrite logRelapse_run in Hrun. cbn zeta in Hrun.
    destruct (dbReady w) eqn:Hdb;
      [|injection Hrun as <- <-; cbn in Hs; discriminate Hs].
    destruct (next_fault w);
      [injection Hrun as <- <-; cbn in Hs; discriminate Hs|].
    match type of Hrun with
    | context [next_fault ?x] =>
        destruct (next_fault x);
          [injection Hrun as <- <-; cbn in Hs; discriminate Hs|]
    end.
    destruct (users (firestore w) !! uid) as [d|] eqn:Hd;
      [|injection Hrun as <- <-; cbn in Hs; discriminate Hs].
    injection Hrun as <- <-. split; [exact Hdb|].
    exists d. apply lookup_insert_eq. }
  destruct H1 as (Hdb1 & d & Hd1).
  set (d1 := apply_patch (relapse_patch reset) d) in *.
  split.
  - intros now stamp Hf Hsame. eexists.
    rewrite updateStreak_run, Hdb1, Hf, Hd1. cbn zeta.
    assert (Ht : isToday tz (lastCheckInDate d1) now = true)
      by (apply isToday_true_iff; symmetry; exact Hsame).
    rewrite Ht. split; reflexivity.
  - intros now stamp r2 w2 Hrun2 Hs2 Hother.
    destruct (updateStreak_success _ _ _ _ _ _ _ Hrun2 Hs2) as (d0 & Hd0 & Hcase).
    rewrite Hd1 in Hd0. injection Hd0 as <-.
    destruct Hcase as [(Ht & _) | (_ & -> & _)].
    + apply isToday_true_iff in Ht. exfalso. apply Hother. symmetry. exact Ht.
    + unfold next_streak. destruct (isYesterday _ _ _); reflexivity.
Qed.

End RelapseMore.

(** ** Profiles, roles and registration *)

Section ProfilesMore.
Context {Coord : Type}.
Variable GeoPoint_ok : Coord -> Coord -> bool.
Implicit Types (w : World Coord) (d : UserDoc Coord).

Lemma checkUserRole_run uid w :
  checkUserRole uid w =
  (Normal (if dbReady w then
             match next_fault w with
             | Some _ => None
             | None =>
                 match users (firestore w) !! uid with
                 | Some d => role d
                 | None => None
                 end
             end
           else None),
   if dbReady w then issued (GetDoc uid) w else w).
Proof.
  unfold checkUserRole, try_catch, bind, ret. rewrite getUserProfile_run.
  cbn zeta. destruct (dbReady w); [|reflexivity].
  destruct (next_fault w); [reflexivity|].
  destruct (users (firestore w) !! uid); reflexivity.
Qed.

(** X10: when [db] is not initialised or the read throws, [getUserProfile]
    does not throw either: it returns the profile holding only the id,
    which is what it returns for a user without a document, and the store
    is as it was. *)
Theorem getUserProfile_masks_failure uid w :
  dbReady w = false \/ (exists message, next_fault w = Some message) ->
  exists w',
    getUserProfile uid w =
      (Normal (Some {| id := uid; data := empty_doc |}), w') /\
    firestore w' = firestore w.
Proof.
  intros Hfail. rewrite getUserProfile_run. cbn zeta.
  destruct (dbReady w); [|eexists; split; reflexivity].
  destruct Hfail as [Hdb | (message & Hf)]; [discriminate Hdb|].
  rewrite Hf. eexists. split; reflexivity.
Qed.

(** X11: [checkUserRole] never throws and never writes, and it reports a
    role exactly when the read is answered with a document that stores
    that role; a missing document, a document without [role] and a
    failing backend all give no role. *)
Theorem checkUserRole_reports_stored_role uid w :
  exists o w',
    checkUserRole uid w = (Normal o, w') /\
    firestore w' = firestore w /\
    forall r,
      o = Some r <->
      dbReady w = true /\ next_fault w = None /\
      exists d, users (firestore w) !! uid = Some d /\ role d = Some r.
Proof.
  eexists _, _. rewrite checkUserRole_run. split; [reflexivity|]. split.
  - destruct (dbReady w); reflexivity.
  - intros r. destruct (dbReady w); [|split; [discriminate|intros [? _]; discriminate]].
    destruct (next_fault w);
      [split; [discriminate|intros (_ & ? & _); discriminate]|].
    destruct (users (firestore w) !! uid) as [d|].
    + split; [intros H; eauto 6|]. intros (_ & _ & d0 & [= <-] & H). exact H.
    + split; [discriminate|]. intros (_ & _ & d0 & ? & _). discriminate.
Qed.

(** X12: [register] never throws; when it returns [false] the store is as
    it was, and when it returns [true] the store differs by exactly the
    new user's document, written whole. *)
Theorem register_outcomes uid joined checked mail password name location w :
  exists (b : bool) w1,
    register GeoPoint_ok uid joined checked mail password name location w =
      (Normal b, w1) /\
    relapses (firestore w1) = relapses (firestore w) /\
    (b = false -> users (firestore w1) = users (firestore w)) /\
    (b = true ->
     users (firestore w1) =
       <[uid := new_profile joined checked mail name location]>
         (users (firestore w))).
Proof.
  rewrite register_run. cbn zeta.
  repeat match goal with
         | |- context [match ?x with _ => _ end] => destruct x
         | |- context [if ?x then _ else _] => destruct x
         end;
    eexists _, _; (split; [reflexivity|]); (split; [reflexivity|]);
    split; intros H; first [discriminate H | reflexivity].
Qed.

(** X19: when the account has been created and the coordinates given are
    not accepted by [GeoPoint], [register] returns [false] without
    writing anything: the call that created the account is the only call
    issued, and the new account is left without a profile document. *)
Theorem register_bad_coordinates
    uid joined checked mail password name lat lng w :
  next_fault w = None ->
  GeoPoint_ok lat lng = false ->
  exists w1,
    register GeoPoint_ok uid joined checked mail password name (Some (lat, lng)) w =
      (Normal false, w1) /\
    firestore w1 = firestore w /\
    trace w1 = trace w ++ [CreateAccount mail password].
Proof.
  intros Hf Hbad. eexists. rewrite register_run, Hf, Hbad, andb_false_r.
  repeat split.
Qed.

(** X13: what [register] stores is what is read back: right after a
    successful registration, if the read is answered, [getUserProfile]
    returns the id with exactly the registered fields, and
    [checkUserRole] returns [member]. *)
Theorem register_then_read uid joined checked mail password name location w w1 :
  register GeoPoint_ok uid joined checked mail password name location w =
    (Normal true, w1) ->
  next_fault w1 = None ->
  fst (getUserProfile uid w1) =
    Normal (Some {| id := uid;
                    data := new_profile joined checked mail name location |}) /\
  fst (checkUserRole uid w1) = Normal (Some member).
Proof.
  intros Hreg Hf.
  destruct (register_success _ _ _ _ _ _ _ _ _ _ Hreg) as [Hdb Hu].
  rewrite getUserProfile_run, checkUserRole_run, Hdb, Hf, Hu, lookup_insert_eq.
  split; reflexivity.
Qed.

End ProfilesMore.

(** ** The community map *)

Section CommunityMap.
Context {Coord : Type}.
Implicit Types (w : World Coord) (d : UserDoc Coord).

Lemma getCommunityLocations_run w :
  getCommunityLocations w =
  if dbReady w then
    match next_fault w with
    | Some _ => (Normal [], queried w)
    | None =>
        (Normal (omap community_entry
                   (merge_sort by_id (map_to_list (users (firestore w))))),
         queried w)
    end
  else (Normal [], w).
Proof.
  unfold getCommunityLocations, try_catch, bind, ret, collection_users,
    getDocs_users.
  destruct (dbReady w); [|reflexivity].
  destruct (next_fault w); reflexivity.
Qed.

Lemma elem_of_docs (w : World Coord) uid d :
  (uid, d) ∈ merge_sort by_id (map_to_list (users (firestore w))) <->
  users (firestore w) !! uid = Some d.
Proof. rewrite merge_sort_Permutation. apply elem_of_map_to_list. Qed.

Lemma community_entry_ids (docs : list (string * UserDoc Coord)) :
  sublist (member_id <$> omap community_entry docs) (fst <$> docs).
Proof.
  induction docs as [|[uid d] docs IH]; [constructor|].
  cbn. unfold community_entry at 1. cbn [fst snd].
  destruct (location d); cbn; constructor; exact IH.
Qed.

(** X14: [getCommunityLocations] never throws and never writes, and
    whatever the backend does, every entry it returns is the id of a
    stored user document together with the location stored in it, and no
    id occurs twice. *)
Theorem getCommunityLocations_sound w :
  exists l w',
    getCommunityLocations w = (Normal l, w') /\
    firestore w' = firestore w /\
    NoDup (member_id <$> l) /\
    forall e,
      e ∈ l ->
      exists d,
        users (firestore w) !! member_id e = Some d /\
        location d = Some (member_location e).
Proof.
  rewrite getCommunityLocations_run.
  assert (Hnil : NoDup (member_id <$> @nil (CommunityLocation Coord)) /\
                 forall e : CommunityLocation Coord, e ∈ @nil (CommunityLocation Coord) ->
                   exists d, users (firestore w) !! member_id e = Some d /\
                             location d = Some (member_location e)).
  { split; [constructor|]. intros e He. inversion He. }
  destruct (dbReady w);
    [|eexists _, _; split; [reflexivity|split; [reflexivity|exact Hnil]]].
  destruct (next_fault w);
    [eexists _, _; split; [reflexivity|split; [reflexivity|exact Hnil]]|].
  eexists _, _. split; [reflexivity|]. split; [reflexivity|]. split.
  - eapply sublist_NoDup; [|apply community_entry_ids].
    rewrite merge_sort_Permutation. apply NoDup_fst_map_to_list.
  - intros e He. apply list_elem_of_omap in He as ([uid d] & Hin & He).
    apply elem_of_docs in Hin. unfold community_entry in He. cbn [fst snd] in He.
    destruct (location d) as [g|] eqn:Hg; [|discriminate He].
    injection He as <-. exists d. auto.
Qed.

(** X15: when the query is answered, every user whose document stores a
    location is on the map, with that location. *)
Theorem getCommunityLocations_complete w uid d g :
  dbReady w = true ->
  next_fault w = None ->
  users (firestore w) !! uid = Some d ->
  location d = Some g ->
  exists l w',
    getCommunityLocations w = (Normal l, w') /\
    {| member_id := uid; member_location := g |} ∈ l.
Proof.
  intros Hdb Hf Hd Hg. eexists _, _.
  rewrite getCommunityLocations_run, Hdb, Hf. split; [reflexivity|].
  apply list_elem_of_omap. exists (uid, d). split.
  - apply elem_of_docs. exact Hd.
  - unfold community_entry. cbn [fst snd]. rewrite Hg. reflexivity.
Qed.

End CommunityMap.

(** ** An invariant of the store: a streak never outgrows its month *)

Section StreakInvariant.
Context {Coord : Type}.
Variable GeoPoint_ok : Coord -> Coord -> bool.
Variable tz : Z -> Z.
Implicit Types (w : World Coord) (d : UserDoc Coord).

Lemma within_month_same w w1 :
  users (firestore w1) = users (firestore w) ->
  streak_within_month tz w -> streak_within_month tz w1.
Proof. intros Hu Hinv uid d. rewrite Hu. apply Hinv. Qed.

Lemma within_month_insert w w1 uid d1 :
  users (firestore w1) = <[uid := d1]> (users (firestore w)) ->
  0 <= streakDays_or_0 d1 <= getDate tz (lastCheckInDate d1) ->
  streak_within_month tz w -> streak_within_month tz w1.
Proof.
  intros Hu Hd1 Hinv ref d. rewrite Hu.
  destruct (decide (ref = uid)) as [->|Hne].
  - rewrite lookup_insert_eq. intros [= <-]. exact Hd1.
  - rewrite lookup_insert_ne by congruence. apply Hinv.
Qed.

Lemma checkin_within_month d now stamp :
  localDate tz (toDate stamp) = localDate tz now ->
  0 <= streakDays_or_0 d <= getDate tz (lastCheckInDate d) ->
  0 <= streakDays_or_0 (apply_patch (checkin_patch tz d now stamp) d)
    <= getDate tz (lastCheckInDate (apply_patch (checkin_patch tz d now stamp) d)).
Proof.
  intros Hclock Hd.
  change (0 <= next_streak tz d now <= getDate tz (toDate stamp)).
  unfold getDate at 1. rewrite Hclock. fold (getDate tz now).
  pose proof (getDate_range tz now) as Hnow.
  unfold next_streak.
  destruct (isYesterday tz (lastCheckInDate d) now) eqn:Hy; [|lia].
  unfold isYesterday in Hy.
  apply andb_true_iff in Hy as [Hy _]. apply andb_true_iff in Hy as [Hy _].
  apply Z.eqb_eq in Hy. lia.
Qed.

Lemma perform_keeps_within_month (a : Action) w :
  same_day_clock tz a ->
  streak_within_month tz w ->
  streak_within_month tz (perform GeoPoint_ok tz a w).
Proof.
  intros Hclock Hinv.
  destruct a as [[now stamp uid | recorded reset uid notes]
                | uid joined checked mail password name location];
    cbn [perform run same_day_clock] in *.
  - rewrite updateStreak_run. cbn zeta.
    destruct (dbReady w); [|exact Hinv].
    destruct (next_fault w); [exact Hinv|].
    destruct (users (firestore w) !! uid) as [d|] eqn:Hd; [|exact Hinv].
    destruct (isToday tz (lastCheckInDate d) now); [exact Hinv|].
    destruct (next_fault (issued (GetDoc uid) w)); [exact Hinv|].
    eapply within_month_insert; [reflexivity| |exact Hinv].
    apply checkin_within_month; [exact Hclock | exact (Hinv _ _ Hd)].
  - rewrite logRelapse_run. cbn zeta.
    destruct (dbReady w); [|exact Hinv].
    destruct (next_fault w); [exact Hinv|].
    match goal with
    | |- context [next_fault ?x] => destruct (next_fault x)
    end; [exact Hinv|].
    destruct (users (firestore w) !! uid) as [d|] eqn:Hd; [|exact Hinv].
    eapply within_month_insert; [reflexivity| |exact Hinv].
    change (0 <= 0 <= getDate tz (toDate reset)).
    pose proof (getDate_range tz (toDate reset)). lia.
  - rewrite register_run. cbn zeta.
    destruct (next_fault w); [exact Hinv|].
    destruct (dbReady w && _); [|exact Hinv].
    match goal with
    | |- context [next_fault ?x] => destruct (next_fault x)
    end; [exact Hinv|].
    eapply within_month_insert; [reflexivity| |exact Hinv].
    change (0 <= 0 <= getDate tz (toDate checked)).
    pose proof (getDate_range tz (toDate checked)). lia.
Qed.

(** What a call does depends on the zone of its host through the calendar
    dates only. *)
Lemma isToday_same_dates tz' a b :
  same_local_dates tz' tz -> isToday tz' a b = isToday tz a b.
Proof.
  intros H. unfold isToday, getDate, getMonth, getFullYear.
  rewrite !H. reflexivity.
Qed.

Lemma isYesterday_same_dates tz' a b :
  same_local_dates tz' tz -> isYesterday tz' a b = isYesterday tz a b.
Proof.
  intros H. unfold isYesterday, getDate, getMonth, getFullYear.
  rewrite !H. reflexivity.
Qed.

Lemma perform_same_dates tz' (a : Action) w :
  same_local_dates tz' tz ->
  perform GeoPoint_ok tz' a w = perform GeoPoint_ok tz a w.
Proof.
  intros H.
  destruct a as [[now stamp uid | recorded reset uid notes]
                | uid joined checked mail password name location];
    cbn [perform run]; [|reflexivity|reflexivity].
  rewrite !updateStreak_run. cbn zeta.
  unfold checkin_patch, next_streak.
  destruct (dbReady w); [|reflexivity].
  destruct (next_fault w); [reflexivity|].
  destruct (users (firestore w) !! uid) as [d|]; [|reflexivity].
  rewrite (isToday_same_dates _ _ _ H), (isYesterday_same_dates _ _ _ H).
  reflexivity.
Qed.

(** X16: take any history of registrations, check-ins and relapses,
    whatever the backend fails, in which every call is made in a zone
    with the calendar dates of one zone [tz] and the two clock readings of
    each check-in fall on the same calendar date.  If every stored streak
    lies between 0 and the day of the month, in [tz], of the
    [lastCheckIn] stored with it, then so it is afterwards; and then no
    stored streak exceeds 31. *)
Theorem history_keeps_streak_within_month
    (steps : list ((Z -> Z) * Action)) w :
  streak_within_month tz w ->
  Forall (step_at_home tz) steps ->
  streak_within_month tz (history_across GeoPoint_ok steps w) /\
  forall uid d,
    users (firestore (history_across GeoPoint_ok steps w)) !! uid = Some d ->
    0 <= streakDays_or_0 d <= 31.
Proof.
  intros Hinv Hsteps.
  assert (H : streak_within_month tz (history_across GeoPoint_ok steps w)).
  { revert w Hinv.
    induction Hsteps as [|[tz' a] steps [Hzone Hclock] _ IH]; intros w Hinv.
    - exact Hinv.
    - cbn [history_across fold_left fst snd] in *. apply IH.
      rewrite (perform_same_dates _ _ _ Hzone).
      apply perform_keeps_within_month; [|exact Hinv].
      destruct a as [[now stamp uid | ? ? ? ?] | ? ? ? ? ? ? ?];
        cbn [same_day_clock] in *; [|exact I|exact I].
      rewrite <- !Hzone. exact Hclock. }
  split; [exact H|]. intros uid d Hd.
  pose proof (H uid d Hd). pose proof (getDate_range tz (lastCheckInDate d)). lia.
Qed.

End StreakInvariant.

(** ** What is returned, what is stored, what is kept *)

Section Consistency.
Context {Coord : Type}.
Variable GeoPoint_ok : Coord -> Coord -> bool.
Variable tz : Z -> Z.
Implicit Types (w : World Coord) (d : UserDoc Coord) (r : JsObject).

(** X17: the streak a successful [updateStreak] returns is the streak
    the store holds afterwards: a [getUserProfile] that follows, if its
    read is answered, returns a profile whose [streakDays] is the value
    just returned. *)
Theorem updateStreak_then_read now stamp uid w r w' :
  updateStreak tz now stamp uid w = (Normal r, w') ->
  prop r "success" = VBool true ->
  next_fault w' = None ->
  exists p,
    fst (getUserProfile uid w') = Normal (Some p) /\
    id p = uid /\
    num_or_undefined (streakDays (data p)) = prop r "streakDays".
Proof.
  intros Hrun Hs Hf.
  assert (Hdb : dbReady w' = true).
  { rewrite updateStreak_run in Hrun. cbn zeta in Hrun.
    destruct (dbReady w) eqn:Hdb;
      [|injection Hrun as <- <-; cbn in Hs; discriminate Hs].
    repeat match type of Hrun with
           | context [match ?x with _ => _ end] => destruct x
           end; injection Hrun as <- <-; exact Hdb. }
  destruct (updateStreak_success _ _ _ _ _ _ _ Hrun Hs) as (d & Hd & Hcase).
  rewrite getUserProfile_run, Hdb, Hf. cbn zeta.
  destruct Hcase as [(_ & -> & ->) | (_ & -> & Hu & _)].
  - cbn [firestore issued]. rewrite Hd. eexists. repeat split.
  - rewrite Hu, lookup_insert_eq. eexists. repeat split.
Qed.

Lemma perform_keeps_documents (a : Action) w :
  relapses (firestore w) `prefix_of` relapses (firestore (perform GeoPoint_ok tz a w)) /\
  dom (users (firestore w)) ⊆ dom (users (firestore (perform GeoPoint_ok tz a w))).
Proof.
  assert (Hsame : forall w1 : World Coord,
            firestore w1 = firestore w ->
            relapses (firestore w) `prefix_of` relapses (firestore w1) /\
            dom (users (firestore w)) ⊆ dom (users (firestore w1))).
  { intros w1 ->. split; reflexivity. }
  destruct a as [[now stamp uid | recorded reset uid notes]
                | uid joined checked mail password name location];
    cbn [perform run].
  - rewrite updateStreak_run. cbn zeta.
    destruct (dbReady w); [|apply Hsame; reflexivity].
    destruct (next_fault w); [apply Hsame; reflexivity|].
    destruct (users (firestore w) !! uid) as [d|]; [|apply Hsame; reflexivity].
    destruct (isToday tz (lastCheckInDate d) now); [apply Hsame; reflexivity|].
    destruct (next_fault (issued (GetDoc uid) w)); [apply Hsame; reflexivity|].
    cbn [snd put_user set_firestore firestore users relapses issued].
    split; [reflexivity|]. rewrite dom_insert_L. apply union_subseteq_r.
  - rewrite logRelapse_run. cbn zeta.
    destruct (dbReady w); [|apply Hsame; reflexivity].
    destruct (next_fault w); [apply Hsame; reflexivity|].
    match goal with
    | |- context [next_fault ?x] => destruct (next_fault x)
    end;
      [|destruct (users (firestore w) !! uid) as [d|]];
      cbn [snd put_user put_relapse set_firestore firestore users relapses issued];
      (split; [apply prefix_app_r; reflexivity|]);
      rewrite ?dom_insert_L; first [reflexivity | apply union_subseteq_r].
  - rewrite register_run. cbn zeta.
    destruct (next_fault w); [apply Hsame; reflexivity|].
    destruct (dbReady w && _); [|apply Hsame; reflexivity].
    match goal with
    | |- context [next_fault ?x] => destruct (next_fault x)
    end; [apply Hsame; reflexivity|].
    cbn [snd put_user set_firestore firestore users relapses issued].
    split; [reflexivity|]. rewrite dom_insert_L. apply union_subseteq_r.
Qed.

(** X18: nothing is ever deleted: along any history of registrations,
    check-ins and relapses, the [relapses] collection only grows at its
    end, and every user document that existed still exists. *)
Theorem history_keeps_documents (actions : list Action) w :
  relapses (firestore w) `prefix_of` relapses (firestore (history GeoPoint_ok tz actions w)) /\
  dom (users (firestore w)) ⊆ dom (users (firestore (history GeoPoint_ok tz actions w))).
Proof.
  revert w. induction actions as [|a actions IH]; intros w.
  - split; reflexivity.
  - cbn [history fold_left].
    destruct (perform_keeps_documents a w) as [Hr Hu].
    destruct (IH (perform GeoPoint_ok tz a w)) as [Hr' Hu'].
    split; [etrans; eassumption | etrans; eassumption].
Qed.

End Consistency.

(** * More concrete runs *)

Section MoreConcreteRuns.
Import Examples MoreExamples.

(** Without the same-day reading of the two clocks the streak does outgrow
    the month: 31 is stored with a [lastCheckIn] of February 1st, and the
    check-in of February 2nd makes it 32. *)
Example midnight_race_outgrows_month :
  users (firestore after_midnight_race) !! "u1" =
    Some (profile (Some 31) (Some (at_utc 2024 2 1 0 + 1))) /\
  fst (updateStreak UTC (at_utc 2024 2 2 8) (at_utc 2024 2 2 8) "u1"
         after_midnight_race) =
    Normal (streak_updated 32).
Proof. split; vm_compute; reflexivity. Qed.

(** A second check-in on 2024-03-11, in the evening. *)
Lemma updateStreak_once_per_day_witness :
  exists w'',
    updateStreak UTC (at_utc 2024 3 11 20) (at_utc 2024 3 11 20) "u1" after_march11 =
      (Normal [("success", VBool true);
               ("streakDays", prop (streak_updated 6) "streakDays");
               ("message", VStr "Already checked in today")], w'') /\
    firestore w'' = firestore after_march11.
Proof.
  apply (updateStreak_once_per_day UTC (at_utc 2024 3 11 8) (at_utc 2024 3 11 8)
           "u1" march10 (streak_updated 6) after_march11);
    vm_compute; reflexivity.
Defined.

(** Check-ins on 2024-03-11 and 2024-03-12: 6, then 7. *)
Lemma updateStreak_consecutive_days_witness :
  (isSafeInteger 5 = true /\ isSafeInteger (5 + 1) = true) /\
  updateStreak UTC (at_utc 2024 3 11 8) (at_utc 2024 3 11 8) "u1" march10 =
    (Normal (streak_updated 6), after_march11) /\
  fst (updateStreak UTC (at_utc 2024 3 12 9) (at_utc 2024 3 12 9) "u1"
         after_march11) = Normal (streak_updated 7) /\
  exists n,
    prop (streak_updated 6) "streakDays" = VNum n /\
    prop (streak_updated 7) "streakDays" = VNum (n + 1) /\
    prop (streak_updated 7) "message" = VStr "Streak updated successfully".
Proof.
  split; [split; reflexivity|].
  split; [vm_compute; reflexivity|]. split; [vm_compute; reflexivity|].
  apply (updateStreak_consecutive_days UTC
           (at_utc 2024 3 11 8) (at_utc 2024 3 11 8)
           (at_utc 2024 3 12 9) (at_utc 2024 3 12 9) "u1" march10
           (profile (Some 5) (Some (at_utc 2024 3 10 9)))
           (streak_updated 6) after_march11 (streak_updated 7)
           (snd (updateStreak UTC (at_utc 2024 3 12 9) (at_utc 2024 3 12 9) "u1"
                   after_march11)));
    vm_compute; reflexivity.
Defined.

(** A check-in on 2024-02-01 after one on 2024-01-31. *)
Lemma updateStreak_first_of_month_witness :
  getDate UTC (at_utc 2024 2 1 7) = 1 /\
  prop (streak_updated 1) "streakDays" = VNum 1 /\
  exists d',
    users (firestore (snd (updateStreak UTC (at_utc 2024 2 1 7) (at_utc 2024 2 1 7)
                             "u1" january31))) !! "u1" = Some d' /\
    streakDays d' = Some 1.
Proof.
  split; [vm_compute; reflexivity|].
  apply (updateStreak_first_of_month UTC (at_utc 2024 2 1 7) (at_utc 2024 2 1 7)
           "u1" january31 (profile (Some 7) (Some (at_utc 2024 1 31 21)))
           (streak_updated 1)
           (snd (updateStreak UTC (at_utc 2024 2 1 7) (at_utc 2024 2 1 7)
                   "u1" january31)));
    vm_compute; first [reflexivity | discriminate].
Defined.

(** The clock reads 2024-03-08 while the last check-in is of the 10th. *)
Lemma updateStreak_last_in_future_witness :
  localDay UTC (at_utc 2024 3 8 12) < localDay UTC (at_utc 2024 3 10 9) /\
  prop (streak_updated 1) "streakDays" = VNum 1 /\
  exists d',
    users (firestore (snd (updateStreak UTC (at_utc 2024 3 8 12) (at_utc 2024 3 8 12)
                             "u1" march10))) !! "u1" = Some d' /\
    streakDays d' = Some 1 /\ lastCheckIn d' = Some (at_utc 2024 3 8 12).
Proof.
  split; [vm_compute; reflexivity|].
  apply (updateStreak_last_in_future UTC (at_utc 2024 3 8 12) (at_utc 2024 3 8 12)
           "u1" march10 (profile (Some 5) (Some (at_utc 2024 3 10 9)))
           (streak_updated 1)
           (snd (updateStreak UTC (at_utc 2024 3 8 12) (at_utc 2024 3 8 12)
                   "u1" march10)));
    vm_compute; reflexivity.
Defined.

(** A relapse logged for an id without a document, and one whose profile
    update the backend refuses. *)
Lemma logRelapse_record_without_reset_witness :
  (exists w',
     logRelapse (at_utc 2024 3 12 22) (at_utc 2024 3 12 22) "nobody" None march10 =
       (Normal [("success", VBool false);
                ("message", VStr (no_document_message "nobody"))], w') /\
     relapses (firestore w') =
       [] ++ [{| userId := "nobody"; timestamp := at_utc 2024 3 12 22; notes := "" |}] /\
     users (firestore w') = users (firestore march10)) /\
  (exists w',
     logRelapse (at_utc 2024 3 12 22) (at_utc 2024 3 12 22) "u1" (Some "again")
       write_rejected =
       (Normal [("success", VBool false);
                ("message", VStr "Missing or insufficient permissions.")], w') /\
     relapses (firestore w') =
       [] ++ [{| userId := "u1"; timestamp := at_utc 2024 3 12 22; notes := "again" |}] /\
     users (firestore w') = users (firestore write_rejected)).
Proof.
  split.
  - apply (logRelapse_record_without_reset (at_utc 2024 3 12 22)
             (at_utc 2024 3 12 22) "nobody" None march10);
      [reflexivity | reflexivity | reflexivity | right; vm_compute; reflexivity].
  - apply (logRelapse_record_without_reset (at_utc 2024 3 12 22)
             (at_utc 2024 3 12 22) "u1" (Some "again") write_rejected);
      [reflexivity | reflexivity | reflexivity
      | left; eexists _, _; reflexivity].
Defined.

Lemma logRelapse_failure_keeps_profiles_witness :
  users (firestore (snd (logRelapse (at_utc 2024 3 12 22) (at_utc 2024 3 12 22)
                           "u1" None read_down))) =
    users (firestore read_down) /\
  (relapses (firestore (snd (logRelapse (at_utc 2024 3 12 22) (at_utc 2024 3 12 22)
                              "u1" None read_down))) =
     relapses (firestore read_down) \/
   relapses (firestore (snd (logRelapse (at_utc 2024 3 12 22) (at_utc 2024 3 12 22)
                              "u1" None read_down))) =
     relapses (firestore read_down) ++
     [{| userId := "u1"; timestamp := at_utc 2024 3 12 22; notes := "" |}]).
Proof.
  apply (logRelapse_failure_keeps_profiles (at_utc 2024 3 12 22)
           (at_utc 2024 3 12 22) "u1" None read_down
           (failure "Failed to get document because the client is offline."));
    vm_compute; reflexivity.
Defined.

(** After the relapse of 2024-03-12: a check-in that night, and one the
    next morning. *)
Lemma logRelapse_then_check_in_witness :
  (exists w2,
     updateStreak UTC (at_utc 2024 3 12 23) (at_utc 2024 3 12 23) "u1" after_relapse =
       (Normal [("success", VBool true); ("streakDays", VNum 0);
                ("message", VStr "Already checked in today")], w2) /\
     firestore w2 = firestore after_relapse) /\
  prop (streak_updated 1) "streakDays" = VNum 1.
Proof.
  destruct (logRelapse_then_check_in UTC (at_utc 2024 3 12 22) (at_utc 2024 3 12 22)
              "u1" (Some "late night") march10 relapse_logged after_relapse)
    as (Hsame & Hnext); [vm_compute; reflexivity | reflexivity |].
  split.
  - apply Hsame; vm_compute; reflexivity.
  - apply (Hnext (at_utc 2024 3 13 7) (at_utc 2024 3 13 7) (streak_updated 1)
             (snd (updateStreak UTC (at_utc 2024 3 13 7) (at_utc 2024 3 13 7)
                     "u1" after_relapse)));
      [vm_compute; reflexivity | reflexivity | vm_compute; discriminate].
Defined.

(** The stored profile of "u1" is not seen when [db] is undefined or the
    client is offline. *)
Lemma getUserProfile_masks_failure_witness :
  (exists w',
     getUserProfile "u1" db_down =
       (Normal (Some {| id := "u1"; data := empty_doc |}), w') /\
     firestore w' = firestore db_down) /\
  (exists w',
     getUserProfile "u1" read_down =
       (Normal (Some {| id := "u1"; data := empty_doc |}), w') /\
     firestore w' = firestore read_down).
Proof.
  split.
  - apply (getUserProfile_masks_failure "u1" db_down). left. reflexivity.
  - apply (getUserProfile_masks_failure "u1" read_down). right.
    eexists. reflexivity.
Defined.

Lemma register_then_read_witness :
  fst (getUserProfile "u9" just_registered) =
    Normal (Some {| id := "u9";
                    data := new_profile (at_utc 2024 5 20 14) (at_utc 2024 5 20 14)
                              "ann@example.org" "ann" None |}) /\
  fst (checkUserRole "u9" just_registered) = Normal (Some member).
Proof.
  apply (register_then_read any_coordinates "u9" (at_utc 2024 5 20 14)
           (at_utc 2024 5 20 14)
           "ann@example.org" "secret" "ann" None no_users just_registered);
    vm_compute; reflexivity.
Defined.

Lemma getCommunityLocations_complete_witness :
  fst (getCommunityLocations with_locations) =
    Normal [{| member_id := "ada";
               member_location := {| latitude := tt; longitude := tt |} |}] /\
  exists l w',
    getCommunityLocations with_locations = (Normal l, w') /\
    {| member_id := "ada";
       member_location := {| latitude := tt; longitude := tt |} |} ∈ l.
Proof.
  split; [vm_compute; reflexivity|].
  eapply (getCommunityLocations_complete with_locations "ada");
    vm_compute; reflexivity.
Defined.

(** A week of "u9", from an empty store. *)
Lemma history_keeps_streak_within_month_witness :
  (streakDays <$>
     users (firestore (history_across any_coordinates a_week_at_home flaky_start))
       !! "u9") = Some (Some 1) /\
  streak_within_month UTC
    (history_across any_coordinates a_week_at_home flaky_start) /\
  forall uid d,
    users (firestore (history_across any_coordinates a_week_at_home flaky_start))
      !! uid = Some d ->
    0 <= streakDays_or_0 d <= 31.
Proof.
  split; [vm_compute; reflexivity|].
  apply (history_keeps_streak_within_month any_coordinates UTC a_week_at_home
           flaky_start).
  - intros uid d H. cbn in H. rewrite lookup_empty in H. discriminate H.
  - repeat (apply Forall_cons_2;
            [split; [intros t; reflexivity | vm_compute; reflexivity]|]).
    apply Forall_nil_2.
Defined.

(** Between zones the streak does outgrow the month: the store of
    [abroad] keeps the bound fourteen hours ahead of UTC, where the last
    check-in is of the 31st, and a check-in made from a UTC host on the
    31st, both clocks read at noon, takes it for the day after the 30th
    and stores 32. *)
Example zone_change_outgrows_month :
  streak_within_month UTC_plus_14 abroad /\
  fst (updateStreak UTC (at_utc 2024 1 31 12) (at_utc 2024 1 31 12) "u1" abroad) =
    Normal (streak_updated 32).
Proof.
  split; [|vm_compute; reflexivity].
  intros uid d H.
  change (users (firestore abroad))
    with (<["u1" := profile (Some 31) (Some (at_utc 2024 1 30 11))]>
            (∅ : gmap string (UserDoc unit))) in H.
  apply lookup_insert_Some in H as [[_ <-] | [_ H]].
  - vm_compute. split; discriminate.
  - rewrite lookup_empty in H. discriminate H.
Qed.

Lemma updateStreak_then_read_witness :
  exists p,
    fst (getUserProfile "u1" after_march11) = Normal (Some p) /\
    id p = "u1" /\
    num_or_undefined (streakDays (data p)) = prop (streak_updated 6) "streakDays".
Proof.
  apply (updateStreak_then_read UTC (at_utc 2024 3 11 8) (at_utc 2024 3 11 8)
           "u1" march10 (streak_updated 6) after_march11);
    vm_compute; reflexivity.
Defined.

Example plain_ids :
  valid_id "u1" = true /\ valid_id "" = false /\ valid_id "a/b" = false.
Proof. repeat split. Qed.

Example safe_integers :
  isSafeInteger (2 ^ 53 - 1) = true /\ isSafeInteger (2 ^ 53) = false.
Proof. split; reflexivity. Qed.

(** A registration from latitude 91. *)
Lemma register_bad_coordinates_witness :
  degrees_ok 91 10 = false /\
  exists w1,
    register degrees_ok "u7" (at_utc 2024 5 20 14) (at_utc 2024 5 20 14)
      "kim@example.org" "secret" "kim" (Some (91, 10)) nobody_yet =
      (Normal false, w1) /\
    firestore w1 = firestore nobody_yet /\
    trace w1 = [] ++ [CreateAccount "kim@example.org" "secret"].
Proof.
  split; [reflexivity|].
  apply (register_bad_coordinates degrees_ok "u7" (at_utc 2024 5 20 14)
           (at_utc 2024 5 20 14) "kim@example.org" "secret" "kim" 91 10
           nobody_yet); reflexivity.
Defined.

End MoreConcreteRuns.
